(** * AFQ.definitions.mapping: registration-mapping definitions

    A shallow embedding of [AFQ/definitions/mapping.py].  The module is an
    adapter layer: each definition class locates or generates a registration
    between subject space and template space and hands back an object with
    the [transform] / [transform_inverse] interface.  The numerical routines
    (dipy, fslpy, h5py, nibabel, numpy.linalg) are collaborators; they enter
    the development as the fields of interface classes.  A call into one of
    them returns [None] when an exception propagates out of it. *)

From Stdlib Require Import ZArith String List.
From stdpp Require Import base tactics option list strings gmap.

Set Default Proof Using "Type".

(** ** Python exceptions *)

Inductive value_error :=
| ItkShapeMismatch (their_shape our_shape : list Z)
| CannotReshape (size : nat) (newshape : list Z)
| CannotBroadcast (from_len into_len : nat)
| NegativeDimensions.

Inductive exn :=
| ImportError (msg : string)
| NotImplementedError (msg : string)
| KeyError (key : string)
| AttributeError (name : string)
| TypeError (what : string)
| ValueError (why : value_error)
| ModuleNotFoundError (module : string)
| FileNotFoundError (path : string)
| Raised (who : string).

(** The outcome of evaluating a Python expression. *)
Inductive result (A : Type) :=
| Ok (a : A)
| Raise (e : exn).
Arguments Ok {A} a.
Arguments Raise {A} e.

Definition is_ok {A} (r : result A) : bool :=
  match r with Ok _ => true | Raise _ => false end.

(** ** Statements that mutate a store and may raise

    A raised exception keeps the mutations made before it, as in Python. *)

Definition M (S A : Type) : Type := S -> result A * S.

Definition ret {S A} (a : A) : M S A := fun s => (Ok a, s).
Definition raise {S A} (e : exn) : M S A := fun s => (Raise e, s).
Definition lift {S A} (r : result A) : M S A := fun s => (r, s).
Definition bind {S A B} (m : M S A) (k : A -> M S B) : M S B :=
  fun s => match m s with
           | (Ok a, s') => k a s'
           | (Raise e, s') => (Raise e, s')
           end.
Definition gets {S A} (f : S -> A) : M S A := fun s => (Ok (f s), s).
Definition modify {S} (f : S -> S) : M S unit := fun s => (Ok tt, f s).

Declare Scope py_scope.
Delimit Scope py_scope with py.
Notation "'let!' x ':=' m 'in' k" := (bind m (fun x => k))
  (at level 10, x name, m at level 100, k at level 200) : py_scope.
Notation "'let!' ' p ':=' m 'in' k" := (bind m (fun x => match x with p => k end))
  (at level 10, p pattern, m at level 100, k at level 200) : py_scope.
Notation "'do!' m 'in' k" := (bind m (fun _ => k))
  (at level 10, m at level 100, k at level 200) : py_scope.
Open Scope py_scope.

(** Exceptions in pure (store-free) code. *)
Definition rbind {A B} (r : result A) (k : A -> result B) : result B :=
  match r with Ok a => k a | Raise e => Raise e end.
Notation "'try!' x ':=' r 'in' k" := (rbind r (fun x => k))
  (at level 10, x name, r at level 100, k at level 200) : py_scope.
Notation "'try!' ' p ':=' r 'in' k" := (rbind r (fun x => match x with p => k end))
  (at level 10, p pattern, r at level 100, k at level 200) : py_scope.

(** [d[k]] on a dict. *)
Definition getitem {V} (d : gmap string V) (k : string) : result V :=
  match d !! k with
  | Some v => Ok v
  | None => Raise (KeyError k)
  end.

(** A call into a collaborator: an exception that propagates out of it
    is recorded with the callee's name. *)
Definition call {A} (who : string) (outcome : option A) : result A :=
  match outcome with
  | Some a => Ok a
  | None => Raise (Raised who)
  end.

(** ** numpy arrays

    An array is its shape and its elements in row-major (C) order. *)

Record ndarray (A : Type) := mk_ndarray { shape : list Z; data : list A }.
Arguments mk_ndarray {A} shape data.
Arguments shape {A} _.
Arguments data {A} _.

Definition numel (shp : list Z) : Z := foldr Z.mul 1%Z shp.

(** [np.asarray(xs)] of a one-dimensional dataset or sequence. *)
Definition asarray {A} (xs : list A) : ndarray A :=
  mk_ndarray [Z.of_nat (length xs)] xs.

(** [a.reshape(newshape)] for a [newshape] without the [-1] placeholder. *)
Definition reshape {A} (a : ndarray A) (newshape : list Z) : result (ndarray A) :=
  if bool_decide (Forall (Z.le 0) newshape /\ numel newshape = Z.of_nat (length (data a)))
  then Ok (mk_ndarray newshape (data a))
  else Raise (ValueError (CannotReshape (length (data a)) newshape)).

(** [np.zeros(shp)]. *)
Definition zeros {A} (zero : A) (shp : list Z) : result (ndarray A) :=
  if bool_decide (Forall (Z.le 0) shp)
  then Ok (mk_ndarray shp (replicate (Z.to_nat (numel shp)) zero))
  else Raise (ValueError NegativeDimensions).

(** [(our != their).any()] for a tuple [our] and a one-dimensional integer
    array [their]: the tuple is converted to an array and the comparison
    is elementwise, with a length-one operand broadcast against the
    other. *)
Fixpoint any_ne (xs ys : list Z) : bool :=
  match xs, ys with
  | x :: xs', y :: ys' => negb (x =? y)%Z || any_ne xs' ys'
  | _, _ => false
  end.

Definition ne_any (our their : list Z) : result bool :=
  if bool_decide (length our = length their) then Ok (any_ne our their)
  else match our, their with
       | [x], _ => Ok (existsb (fun y => negb (x =? y)%Z) their)
       | _, [y] => Ok (existsb (fun x => negb (x =? y)%Z) our)
       | _, _ => Raise (ValueError (CannotBroadcast (length their) (length our)))
       end.

(** ** Collaborators

    Everything below is provided by other packages.  Each class collects
    the calls this module makes into one of them. *)

Class Numpy := {
  float64 : Type;
  fzero : float64;
  fone : float64;
  fadd : float64 -> float64 -> float64;
  fsub : float64 -> float64 -> float64;
  (** element conversion of [np.asarray(_, dtype=int)] *)
  to_int : float64 -> Z;
  (** element conversion of [_.astype(np.float32)] *)
  to_float32 : float64 -> float64;
  (** [np.linalg.inv] *)
  linalg_inv : ndarray float64 -> option (ndarray float64);
}.

(** A value that can be passed as an argument or keyword argument. *)
Inductive pyval `{Numpy} :=
| VNone
| VBool (b : bool)
| VInt (z : Z)
| VFloat (x : float64)
| VStr (s : string)
| VArray (a : ndarray float64).

Abbreviation kwargs := (gmap string pyval).

(** [nib.Nifti1Image(dataobj, affine)]. *)
Record Nifti1Image `{Numpy} := mk_Nifti1Image {
  get_fdata : ndarray float64;
  affine : ndarray float64;
}.
Arguments mk_Nifti1Image {_} get_fdata affine.

Class Fslpy `{Numpy} := {
  FslImage : Type;
  DeformationField : Type;
  (** [fsl.data.image.Image(path)] *)
  Image_open : string -> option FslImage;
  (** [fsl.data.image.Image(nibabel_image)] *)
  Image_wrap : Nifti1Image -> option FslImage;
  (** [image.data] *)
  Image_data : FslImage -> ndarray float64;
  readFnirt : string -> FslImage -> FslImage -> option DeformationField;
  applyDeformation : FslImage -> DeformationField -> option FslImage;
}.

(** An open HDF5 file: group, subgroup, one-dimensional dataset. *)
Abbreviation h5file := (gmap string (gmap string (gmap string (list float64)))).

Class H5py `{Numpy} := {
  (** [h5py.File(path)] *)
  h5py_File : string -> option h5file;
}.

Class Dipy `{Numpy} := {
  (** state of a [dipy.align.imaffine.AffineMap] *)
  AffineMap : Type;
  (** [AffineMap(affine)] *)
  AffineMap_init : ndarray float64 -> option AffineMap;
  AffineMap_transform : AffineMap -> list pyval -> kwargs -> option pyval;
  AffineMap_transform_inverse : AffineMap -> list pyval -> kwargs -> option pyval;
  DiffeomorphicMap : Type;
  (** [mapping.codomain_world2grid = value] *)
  set_codomain_world2grid : DiffeomorphicMap -> ndarray float64 -> DiffeomorphicMap;
  (** [affine_registration(moving, static, **kwargs)], second component *)
  affine_registration :
    Nifti1Image -> Nifti1Image -> kwargs -> option (ndarray float64);
  (** [syn_registration(moving, static, moving_affine=, static_affine=,
      prealign=, **kwargs)], second component *)
  syn_registration :
    ndarray float64 -> ndarray float64 -> ndarray float64 -> ndarray float64 ->
    option (ndarray float64) -> kwargs -> option DiffeomorphicMap;
}.

(** One row of the subject/session table, without its mutable [timing]
    entry, which lives in the store. *)
Record row := mk_row { ses : string; subject : string; dwi_file : string }.

(** What [read_mapping] is given as [disp]: an image in memory, or a path
    whose file it loads first. *)
Inductive displacement (F : Type) `{Numpy} :=
| DispImage (img : Nifti1Image)
| DispFile (path : string) (content : F).
Arguments DispImage {F _} img.
Arguments DispFile {F _} path content.

(** Opaque data of the pyAFQ modules this one imports
    ([AFQ.api], [AFQ.registration], [AFQ.definitions.utils]). *)
Class AFQ_data := {
  BIDSLayout : Type;
  (** the [afq_object] handed to [get_for_row] *)
  AFQ : Type;
  (** what [reg_subject] / [reg_template] designate *)
  RegSource : Type;
  Streamlines : Type;
  (** a mapping built inside [AFQ.registration] *)
  RegistrationMapping : Type;
}.

(** ** Mapping objects and their classes *)

Section objects.
Context `{Numpy, !Fslpy, !Dipy, !AFQ_data}.

Inductive mapping :=
| ConformedFnirtMapping (warp : DeformationField) (ref_affine : ndarray float64)
| ConformedAffineMapping (super : AffineMap)
| DiffeomorphicMapping (m : DiffeomorphicMap)
| OpaqueMapping (m : RegistrationMapping).

(** Files this module reads and writes. *)
Inductive file :=
| NpyFile (a : ndarray float64)
| MappingFile (m : mapping)
| JsonFile (meta : gmap string string).

(** Calls that the properties of the cache speak about. *)
Inductive event :=
| Call_affine_registration
| Call_gen_mapping
| Np_save (path : string)
| Write_mapping (path : string)
| Write_json (path : string) (meta : gmap string string).

(** The store: the disk, [row['timing']], the readings of [time()] taken
    so far, and the calls made so far. *)
Record state := mk_state {
  fs : gmap string file;
  timing : gmap string float64;
  clock : nat;
  trace : list event;
}.
End objects.

Inductive class :=
| C_ConformedFnirtMapping
| C_ConformedAffineMapping
| C_AffineMap
| C_DiffeomorphicMap
| C_Mapping.

(** Modelled from the spec: the class of a mapping built inside
    [AFQ.registration] is not in the source; the data model says a Mapping
    is opaque and "must expose [transform(data, **kwargs)] and
    [transform_inverse(data, **kwargs)]". *)
Definition Mapping_interface : list string := ["transform"; "transform_inverse"].

(** The methods a class body defines.  The first two are the class
    statements of this module, the next two are dipy's. *)
Definition own_methods (c : class) : list string :=
  match c with
  | C_ConformedFnirtMapping => ["__init__"; "transform_inverse"; "transform"]
  | C_ConformedAffineMapping => ["transform"; "transform_inverse"]
  | C_AffineMap => ["__init__"; "get_affine"; "set_affine"; "transform"; "transform_inverse"]
  | C_DiffeomorphicMap => ["__init__"; "transform"; "transform_inverse"]
  | C_Mapping => Mapping_interface
  end.

Definition bases (c : class) : list class :=
  match c with
  | C_ConformedAffineMapping => [C_AffineMap]
  | _ => []
  end.

(** Method resolution order (the hierarchy has depth one). *)
Definition mro (c : class) : list class := c :: bases c.

Definition class_has (c : class) (name : string) : bool :=
  existsb (fun k => bool_decide (name ∈ own_methods k)) (mro c).

Definition type_of `{Numpy, !Fslpy, !Dipy, !AFQ_data} (m : mapping) : class :=
  match m with
  | ConformedFnirtMapping _ _ => C_ConformedFnirtMapping
  | ConformedAffineMapping _ => C_ConformedAffineMapping
  | DiffeomorphicMapping _ => C_DiffeomorphicMap
  | OpaqueMapping _ => C_Mapping
  end.

(** [hasattr(m, name)] for a method name. *)
Definition hasattr `{Numpy, !Fslpy, !Dipy, !AFQ_data} (m : mapping) (name : string) : bool :=
  class_has (type_of m) name.

(** Calls into the pyAFQ modules this one imports. *)
Class AFQ_calls `{Numpy, !Fslpy, !Dipy, !AFQ_data} := {
  (** [find_file(bids_layout, path, filters, suffix, session, subject,
      extension=...)]; [None] when the caller leaves [extension] out *)
  find_file :
    BIDSLayout -> string -> gmap string string -> string -> string -> string ->
    option string -> option string;
  reg_template_img : AFQ -> Nifti1Image;
  reg_subject : AFQ -> RegSource;
  reg_template : AFQ -> RegSource;
  (** [afq_object._get_fname(row, suffix)] *)
  _get_fname : AFQ -> row -> string -> string;
  (** [afq_object._reg_img(source, subject_side, row)] *)
  _reg_img : AFQ -> RegSource -> bool -> row -> option (Nifti1Image * Streamlines);
  (** [reg.slr_registration(moving, static, moving_affine=, moving_shape=,
      static_affine=, static_shape=, **kwargs)] *)
  slr_registration :
    Streamlines -> Streamlines -> ndarray float64 -> list Z ->
    ndarray float64 -> list Z -> kwargs -> option RegistrationMapping;
  (** what [reg.read_mapping(disp, domain_img, codomain_img, prealign=)]
      builds once [disp] is in memory *)
  build_mapping :
    displacement file -> string -> Nifti1Image -> option (ndarray float64) ->
    option RegistrationMapping;
  (** the successive readings of [time()] *)
  wall_clock : nat -> float64;
}.

(** ** Module level: the optional imports *)

Record site := mk_site { fslpy_installed : bool; h5py_installed : bool }.

Definition import_from (present : bool) (module : string) : result unit :=
  if present then Ok tt else Raise (ModuleNotFoundError module).

Record globals := mk_globals { has_fslpy : bool; has_h5py : bool }.

(** [try: import ...; flag = True / except ModuleNotFoundError: flag = False] *)
Definition try_import (imports : result unit) : result bool :=
  match imports with
  | Ok _ => Ok true
  | Raise (ModuleNotFoundError _) => Ok false
  | Raise e => Raise e
  end.

Definition load_module (env : site) : result globals :=
  try! fsl := try_import
    (try! _ := import_from (fslpy_installed env) "fsl.data.image" in
     try! _ := import_from (fslpy_installed env) "fsl.transform.fnirt" in
     import_from (fslpy_installed env) "fsl.transform.nonlinear") in
  try! h5 := try_import (import_from (h5py_installed env) "h5py") in
  Ok (mk_globals fsl h5).

(** An optional argument whose default is the empty dict. *)
Definition or_empty {V} (arg : option (gmap string V)) : gmap string V :=
  default ∅ arg.

(** [self.fnames[session][subject] = value], after the guard
    [if session not in self.fnames: self.fnames[session] = {}]. *)
Definition ensure_session {V} (session : string)
    (fnames : gmap string (gmap string V)) : gmap string (gmap string V) :=
  if bool_decide (is_Some (fnames !! session)) then fnames
  else <[session := ∅]> fnames.

Definition store_fname {V} (session subject : string) (value : V)
    (fnames : gmap string (gmap string V)) : result (gmap string (gmap string V)) :=
  try! inner := getitem fnames session in
  Ok (<[session := <[subject := value]> inner]> fnames).

(** ** FnirtMap *)

Module FnirtMap.
Section defs.
Context `{Numpy, !Fslpy, !Dipy, !AFQ_data, !AFQ_calls}.

Record t := mk {
  warp_suffix : string;
  space_suffix : string;
  warp_filters : gmap string string;
  space_filters : gmap string string;
  fnames : gmap string (gmap string (string * string));
}.

Definition set_fnames (f : gmap string (gmap string (string * string))) (self : t) : t :=
  mk (warp_suffix self) (space_suffix self) (warp_filters self)
     (space_filters self) f.

Definition __init__ (g : globals) (warp_suffix space_suffix : string)
    (warp_filters space_filters : option (gmap string string)) : result t :=
  if negb (has_fslpy g) then
    Raise (ImportError "Please install fslpy if you want to use FnirtMap")
  else
    Ok (mk warp_suffix space_suffix (or_empty warp_filters)
           (or_empty space_filters) ∅).

Definition find_path (bids_layout : BIDSLayout)
    (from_path subject session : string) : M t unit :=
  do! modify (fun self => set_fnames (ensure_session session (fnames self)) self) in
  let! self := gets id in
  let! nearest_warp := lift (call "find_file" (find_file bids_layout from_path
    (warp_filters self) (warp_suffix self) session subject None)) in
  let! nearest_space := lift (call "find_file" (find_file bids_layout from_path
    (space_filters self) (space_suffix self) session subject None)) in
  let! fnames' := lift (store_fname session subject
    (nearest_warp, nearest_space) (fnames self)) in
  modify (set_fnames fnames').

Definition get_for_row (self : t) (afq_object : AFQ) (r : row) : result mapping :=
  try! by_subject := getitem (fnames self) (ses r) in
  try! '(nearest_warp, nearest_space) := getitem by_subject (subject r) in
  let our_templ := reg_template_img afq_object in
  try! subj := call "Image" (Image_open (dwi_file r)) in
  try! their_templ := call "Image" (Image_open nearest_space) in
  try! warp := call "readFnirt" (readFnirt nearest_warp their_templ subj) in
  Ok (ConformedFnirtMapping warp (affine our_templ)).
End defs.
End FnirtMap.

(** ** ConformedFnirtMapping *)

Module ConformedFnirtMapping.
Section defs.
Context `{Numpy, !Fslpy}.

Definition astype_float32 (a : ndarray float64) : ndarray float64 :=
  mk_ndarray (shape a) (to_float32 <$> data a).

Definition transform_inverse (warp : DeformationField) (ref_affine : ndarray float64)
    (data : ndarray float64) (kw : kwargs) : result (ndarray float64) :=
  try! data_img := call "Image"
    (Image_wrap (mk_Nifti1Image (astype_float32 data) ref_affine)) in
  try! deformed := call "applyDeformation" (applyDeformation data_img warp) in
  let xform_data := Image_data deformed in
  Ok xform_data.

Definition transform (warp : DeformationField) (ref_affine : ndarray float64)
    (data : ndarray float64) (kw : kwargs) : result (ndarray float64) :=
  Raise (NotImplementedError
    ("Fnirt based mappings can currently"
     +:+ " only transform from template to subject space")).
End defs.
End ConformedFnirtMapping.

(** ** The store: disk, timing and clock *)

Section store.
Context `{Numpy, !Fslpy, !Dipy, !AFQ_data, !AFQ_calls}.

Definition set_fs (f : gmap string file) (s : state) : state :=
  mk_state f (timing s) (clock s) (trace s).
Definition set_timing (t : gmap string float64) (s : state) : state :=
  mk_state (fs s) t (clock s) (trace s).

Definition emit (e : event) : M state unit :=
  modify (fun s => mk_state (fs s) (timing s) (clock s) (trace s ++ [e])).

(** [time()] *)
Definition time : M state float64 :=
  fun s => (Ok (wall_clock (clock s)),
            mk_state (fs s) (timing s) (S (clock s)) (trace s)).

(** [op.exists(path)] *)
Definition op_exists (path : string) : M state bool :=
  gets (fun s => bool_decide (is_Some (fs s !! path))).

(** [np.save(path, a)] *)
Definition np_save (path : string) (a : ndarray float64) : M state unit :=
  do! emit (Np_save path) in
  modify (fun s => set_fs (<[path := NpyFile a]> (fs s)) s).

(** [np.load(path)] *)
Definition np_load (path : string) : M state (ndarray float64) :=
  let! disk := gets fs in
  match disk !! path with
  | Some (NpyFile a) => ret a
  | Some _ => raise (Raised "np.load")
  | None => raise (FileNotFoundError path)
  end.

(** Modelled from the spec: [AFQ.data.write_json] is not in the source;
    the module "writes JSON metadata sidecar files". *)
Definition write_json (fname : string) (meta : gmap string string) : M state unit :=
  do! emit (Write_json fname meta) in
  modify (fun s => set_fs (<[fname := JsonFile meta]> (fs s)) s).

(** [row['timing'][key] = row['timing'][key] + time() - start_time] *)
Definition add_elapsed (key : string) (start_time : float64) : M state unit :=
  let! t := gets timing in
  let! so_far := lift (getitem t key) in
  let! now := time in
  modify (fun s => set_timing (<[key := fsub (fadd so_far now) start_time]> (timing s)) s).
End store.

(** ** AFQ.registration, imported as [reg] *)

Module reg.
Section defs.
Context `{Numpy, !Fslpy, !Dipy, !AFQ_data, !AFQ_calls}.

(** Modelled from the spec: [AFQ.registration.read_mapping] is not in the
    source.  A Mapping is "opaque, produced by an external registration
    routine or file", so the result is an object of the opaque mapping
    class, built by the collaborator from the displacement, the two
    images and [prealign].  This is the call with [disp] an image. *)
Definition read_mapping (disp : Nifti1Image) (domain_img : string)
    (codomain_img : Nifti1Image) (prealign : option (ndarray float64)) : result mapping :=
  try! m := call "read_mapping"
    (build_mapping (DispImage disp) domain_img codomain_img prealign) in
  Ok (OpaqueMapping m).

(** Modelled from the spec: the same call with [disp] a path, "reused on
    subsequent runs if present": the file at the path is loaded first. *)
Definition read_mapping_from (disp : string) (domain_img : string)
    (codomain_img : Nifti1Image) (prealign : option (ndarray float64)) : M state mapping :=
  let! disk := gets fs in
  match disk !! disp with
  | None => raise (FileNotFoundError disp)
  | Some content =>
      lift (try! m := call "read_mapping"
              (build_mapping (DispFile disp content) domain_img
                 codomain_img prealign) in
            Ok (OpaqueMapping m))
  end.

(** Modelled from the spec: [AFQ.registration.write_mapping] is not in the
    source; it leaves the "warp artifact: a serialized displacement field
    or matrix" at [fname]. *)
Definition write_mapping (m : mapping) (fname : string) : M state unit :=
  do! emit (Write_mapping fname) in
  modify (fun s => set_fs (<[fname := MappingFile m]> (fs s)) s).
End defs.
End reg.

(** ** ItkMap *)

(** [dst[..., 0] = src] for [dst] with a last axis of length two. *)
Fixpoint assign_component0 {A} (dst src : list A) : list A :=
  match dst, src with
  | _ :: d1 :: dst', x :: src' => x :: d1 :: assign_component0 dst' src'
  | _, _ => dst
  end.

(** Flat positions of [a[rows, cols]] in a two-dimensional array. *)
Definition positions (ncols : nat) (rows cols : list nat) : list nat :=
  r ← rows; c ← cols; [r * ncols + c]%nat.

(** [a[rows, cols] = src], elementwise in row-major order. *)
Definition assign_at {A} (a : ndarray A) (where_ : list nat) (src : list A) : ndarray A :=
  mk_ndarray (shape a)
    (foldl (fun acc kv => <[kv.1 := kv.2]> acc) (data a) (zip where_ src)).

(** Broadcasting of a one-dimensional [src] into [n] places. *)
Definition broadcast_to {A} (n : nat) (src : list A) : result (list A) :=
  if bool_decide (length src = n) then Ok src
  else match src with
       | [x] => Ok (replicate n x)
       | _ => Raise (ValueError (CannotBroadcast (length src) n))
       end.

Module ItkMap.
Section defs.
Context `{Numpy, !Fslpy, !H5py, !Dipy, !AFQ_data, !AFQ_calls}.

Record t := mk {
  warp_suffix : string;
  warp_filters : gmap string string;
  fnames : gmap string (gmap string string);
}.

Definition set_fnames (f : gmap string (gmap string string)) (self : t) : t :=
  mk (warp_suffix self) (warp_filters self) f.

Definition __init__ (g : globals) (warp_suffix : string)
    (warp_filters : option (gmap string string)) : result t :=
  if negb (has_h5py g) then
    Raise (ImportError "Please install h5py if you want to use ItkMap")
  else
    Ok (mk warp_suffix (or_empty warp_filters) ∅).

Definition find_path (bids_layout : BIDSLayout)
    (from_path subject session : string) : M t unit :=
  do! modify (fun self => set_fnames (ensure_session session (fnames self)) self) in
  let! self := gets id in
  let! nearest := lift (call "find_file" (find_file bids_layout from_path
    (warp_filters self) (warp_suffix self) session subject (Some "h5"))) in
  let! fnames' := lift (store_fname session subject nearest (fnames self)) in
  modify (set_fnames fnames').

(** [warp_f5["TransformGroup"][group][dataset]] *)
Definition transform_dataset (warp_f5 : h5file) (group dataset : string) :
    result (list float64) :=
  try! groups := getitem warp_f5 "TransformGroup" in
  try! g := getitem groups group in
  getitem g dataset.

Definition get_for_row (self : t) (afq_object : AFQ) (r : row) : result mapping :=
  try! by_subject := getitem (fnames self) (ses r) in
  try! nearest_warp := getitem by_subject (subject r) in
  try! warp_f5 := call "h5py.File" (h5py_File nearest_warp) in
  try! fixed := transform_dataset warp_f5 "1" "TransformFixedParameters" in
  let their_shape := take 3 (to_int <$> fixed) in
  let our_shape := shape (get_fdata (reg_template_img afq_object)) in
  try! differ := ne_any our_shape their_shape in
  if differ then Raise (ValueError (ItkShapeMismatch their_shape our_shape))
  else
    try! params := transform_dataset warp_f5 "1" "TransformParameters" in
    try! their_forward := reshape (asarray params) (their_shape ++ [3%Z]) in
    try! their_disp := zeros fzero (their_shape ++ [3%Z; 2%Z]) in
    let their_disp :=
      mk_ndarray (shape their_disp)
        (assign_component0 (data their_disp) (data their_forward)) in
    let their_disp :=
      mk_Nifti1Image their_disp (affine (reg_template_img afq_object)) in
    try! their_prealign := zeros fzero [4%Z; 4%Z] in
    try! params2 := transform_dataset warp_f5 "2" "TransformParameters" in
    try! block := reshape (asarray (take 9 params2)) [3%Z; 3%Z] in
    let their_prealign :=
      assign_at their_prealign (positions 4 [0; 1; 2] [0; 1; 2])%nat (data block) in
    try! params2 := transform_dataset warp_f5 "2" "TransformParameters" in
    try! column := broadcast_to 3 (drop 9 params2) in
    let their_prealign :=
      assign_at their_prealign (positions 4 [0; 1; 2] [3])%nat column in
    let their_prealign :=
      assign_at their_prealign (positions 4 [3] [3])%nat [fone] in
    reg.read_mapping their_disp (dwi_file r) (reg_template_img afq_object)
      (Some their_prealign).
End defs.
End ItkMap.

(** ** Maps generated by pyAFQ

    [GeneratedMapMixin] reads [self.extension], [self.use_prealign],
    [self.affine_kwargs] and [self.gen_mapping] from whichever subclass it
    is mixed into, so instances carry their attribute dict.  Neither the
    three subclasses nor the mixin define class-level data attributes, and
    their other base ([Definition]) is taken to define none of the names
    read here. *)

Inductive attr `{Numpy} :=
| ABool (b : bool)
| AStr (s : string)
| ADict (d : kwargs).

Inductive generated := C_SynMap | C_SlrMap | C_AffMap.

Record instance `{Numpy} := mk_instance {
  type : generated;
  __dict__ : gmap string attr;
}.
Arguments mk_instance {_} type __dict__.

Section attributes.
Context `{Numpy}.

(** [self.name] *)
Definition getattr (self : instance) (name : string) : result attr :=
  match __dict__ self !! name with
  | Some v => Ok v
  | None => Raise (AttributeError name)
  end.

(** [self.name = v] *)
Definition setattr (name : string) (v : attr) (self : instance) : instance :=
  mk_instance (type self) (<[name := v]> (__dict__ self)).

(** [if v:] *)
Definition truthy (v : attr) : bool :=
  match v with
  | ABool b => b
  | AStr s => negb (bool_decide (s = ""))
  | ADict d => negb (bool_decide (d = ∅))
  end.

(** [prefix + v] for a str [prefix] *)
Definition str_add (prefix : string) (v : attr) : result string :=
  match v with
  | AStr s => Ok (prefix +:+ s)
  | _ => Raise (TypeError "can only concatenate str to str")
  end.

(** [**v] in a call *)
Definition unpack (v : attr) : result kwargs :=
  match v with
  | ADict d => Ok d
  | _ => Raise (TypeError "argument after ** must be a mapping")
  end.
End attributes.

Module GeneratedMapMixin.
Section defs.
Context `{Numpy, !Fslpy, !Dipy, !AFQ_data, !AFQ_calls}.

Definition get_fnames (extension : attr) (afq_object : AFQ) (r : row) :
    result (string * string) :=
  let mapping_file := _get_fname afq_object r "_mapping_from-DWI_to_MNI_xfm" in
  let meta_fname := _get_fname afq_object r "_mapping_reg" in
  try! mapping_file := str_add mapping_file extension in
  let meta_fname := meta_fname +:+ ".json" in
  Ok (mapping_file, meta_fname).

Definition prealign (self : instance) (afq_object : AFQ) (r : row) : M state string :=
  let prealign_file :=
    _get_fname afq_object r "_prealign_from-DWI_to-MNI_xfm.npy" in
  let! present := op_exists prealign_file in
  do! (if negb present then
         let! '(reg_subject_img, _) :=
           lift (call "_reg_img" (_reg_img afq_object (reg_subject afq_object) true r)) in
         let! start_time := time in
         let! affine_kwargs := lift (try! v := getattr self "affine_kwargs" in unpack v) in
         do! emit Call_affine_registration in
         let! aff := lift (call "affine_registration"
           (affine_registration reg_subject_img
              (reg_template_img afq_object) affine_kwargs)) in
         do! np_save prealign_file aff in
         let meta_fname :=
           _get_fname afq_object r "_prealign_from-DWI_to-MNI_xfm.json" in
         let meta : gmap string string := {[ "type" := "rigid" ]} in
         do! write_json meta_fname meta in
         add_elapsed "Registration_pre_align" start_time
       else ret tt) in
  ret prealign_file.

(** [np.linalg.inv(reg_prealign)], where [reg_prealign] may be [None]. *)
Definition inv (reg_prealign : option (ndarray float64)) : result (ndarray float64) :=
  match reg_prealign with
  | Some a => call "np.linalg.inv" (linalg_inv a)
  | None => Raise (Raised "np.linalg.inv")
  end.

(** The signature of [self.gen_mapping], which the subclasses provide. *)
Definition gen_mapping_method : Type :=
  instance -> AFQ -> row -> Nifti1Image -> Streamlines -> Nifti1Image ->
  Streamlines -> option (ndarray float64) -> M state mapping.

Definition get_for_row (gen_mapping : gen_mapping_method)
    (self : instance) (afq_object : AFQ) (r : row) : M state mapping :=
  let! '(mapping_file, meta_fname) :=
    lift (try! extension := getattr self "extension" in
          get_fnames extension afq_object r) in
  let! use_prealign := lift (getattr self "use_prealign") in
  let! reg_prealign :=
    (if truthy use_prealign then
       let! prealign_file := prealign self afq_object r in
       let! a := np_load prealign_file in
       ret (Some a)
     else ret None) in
  let! present := op_exists mapping_file in
  do! (if negb present then
         let! '(reg_template_img, reg_template_sls) :=
           lift (call "_reg_img" (_reg_img afq_object (reg_template afq_object) false r)) in
         let! '(reg_subject_img, reg_subject_sls) :=
           lift (call "_reg_img" (_reg_img afq_object (reg_subject afq_object) true r)) in
         let! start_time := time in
         do! emit Call_gen_mapping in
         let! mapping := gen_mapping self afq_object r reg_template_img
                           reg_template_sls reg_subject_img reg_subject_sls
                           reg_prealign in
         do! add_elapsed "Registration" start_time in
         do! reg.write_mapping mapping mapping_file in
         let meta : gmap string string := {[ "type" := "displacementfield" ]} in
         write_json meta_fname meta
       else ret tt) in
  let! use_prealign := lift (getattr self "use_prealign") in
  let! reg_prealign_inv :=
    (if truthy use_prealign then
       let! a := lift (inv reg_prealign) in ret (Some a)
     else ret None) in
  reg.read_mapping_from mapping_file (dwi_file r)
    (reg_template_img afq_object) reg_prealign_inv.
End defs.
End GeneratedMapMixin.

Module SynMap.
Section defs.
Context `{Numpy, !Fslpy, !Dipy, !AFQ_data, !AFQ_calls}.

Definition __init__ (use_prealign : option bool)
    (affine_kwargs syn_kwargs : option kwargs) : instance :=
  let self := mk_instance C_SynMap ∅ in
  let self := setattr "use_prealign" (ABool (default true use_prealign)) self in
  let self := setattr "affine_kwargs" (ADict (or_empty affine_kwargs)) self in
  let self := setattr "syn_kwargs" (ADict (or_empty syn_kwargs)) self in
  setattr "extension" (AStr ".nii.gz") self.

Definition find_path (bids_layout : BIDSLayout)
    (from_path subject session : string) : M (instance * state) unit :=
  ret tt.

Definition gen_mapping : GeneratedMapMixin.gen_mapping_method :=
  fun self afq_object r reg_template_img reg_template_sls
      reg_subject_img reg_subject_sls reg_prealign =>
  let! syn_kwargs := lift (try! v := getattr self "syn_kwargs" in unpack v) in
  let! mapping := lift (call "syn_registration" (syn_registration
    (get_fdata reg_subject_img) (get_fdata reg_template_img)
    (affine reg_subject_img) (affine reg_template_img)
    reg_prealign syn_kwargs)) in
  let! use_prealign := lift (getattr self "use_prealign") in
  let! mapping :=
    (if truthy use_prealign then
       let! world2grid := lift (GeneratedMapMixin.inv reg_prealign) in
       ret (set_codomain_world2grid mapping world2grid)
     else ret mapping) in
  ret (DiffeomorphicMapping mapping).
End defs.
End SynMap.

Module SlrMap.
Section defs.
Context `{Numpy, !Fslpy, !Dipy, !AFQ_data, !AFQ_calls}.

Definition __init__ (syn_kwargs : option kwargs) : instance :=
  let self := mk_instance C_SlrMap ∅ in
  let self := setattr "syn_kwargs" (ADict ∅) self in
  let self := setattr "use_prealign" (ABool false) self in
  setattr "extension" (AStr ".npy") self.

Definition find_path (bids_layout : BIDSLayout)
    (from_path subject session : string) : M (instance * state) unit :=
  ret tt.

Definition gen_mapping : GeneratedMapMixin.gen_mapping_method :=
  fun self afq_object r reg_template_img reg_template_sls
      reg_subject_img reg_subject_sls reg_prealign =>
  let moving_affine := affine reg_subject_img in
  let moving_shape := shape (get_fdata reg_subject_img) in
  let static_affine := affine reg_template_img in
  let static_shape := shape (get_fdata reg_template_img) in
  let! slr_kwargs := lift (try! v := getattr self "slr_kwargs" in unpack v) in
  let! mapping := lift (call "slr_registration"
    (slr_registration reg_subject_sls reg_template_sls
       moving_affine moving_shape static_affine static_shape slr_kwargs)) in
  ret (OpaqueMapping mapping).
End defs.
End SlrMap.

Module AffMap.
Section defs.
Context `{Numpy, !Fslpy, !Dipy, !AFQ_data, !AFQ_calls}.

Definition __init__ (affine_kwargs : option kwargs) : instance :=
  let self := mk_instance C_AffMap ∅ in
  let self := setattr "use_prealign" (ABool false) self in
  let self := setattr "affine_kwargs" (ADict (or_empty affine_kwargs)) self in
  setattr "extension" (AStr ".npy") self.

Definition find_path (bids_layout : BIDSLayout)
    (from_path subject session : string) : M (instance * state) unit :=
  ret tt.

Definition gen_mapping : GeneratedMapMixin.gen_mapping_method :=
  fun self afq_object r reg_template_img reg_template_sls
      reg_subject_img reg_subject_sls reg_prealign =>
  let! prealign_file := GeneratedMapMixin.prealign self afq_object r in
  let! aff := np_load prealign_file in
  let! super := lift (call "AffineMap" (AffineMap_init aff)) in
  ret (ConformedAffineMapping super).
End defs.
End AffMap.

Module ConformedAffineMapping.
Section defs.
Context `{Numpy, !Dipy}.

(** Binding of a call's keywords to the signature
    [(self, *args, interpolation='linear', **kwargs)]. *)
Definition bind_keywords (keywords : kwargs) : pyval * kwargs :=
  (default (VStr "linear") (keywords !! "interpolation"),
   delete "interpolation" keywords).

Definition transform (self : AffineMap) (args : list pyval) (keywords : kwargs) :
    result pyval :=
  let '(interpolation, kwargs) := bind_keywords keywords in
  let kwargs := <["interp" := interpolation]> kwargs in
  call "AffineMap.transform_inverse" (AffineMap_transform_inverse self args kwargs).

Definition transform_inverse (self : AffineMap) (args : list pyval) (keywords : kwargs) :
    result pyval :=
  let '(interpolation, kwargs) := bind_keywords keywords in
  let kwargs := <["interp" := interpolation]> kwargs in
  call "AffineMap.transform" (AffineMap_transform self args kwargs).
End defs.
End ConformedAffineMapping.

(** ** Method resolution for the generated maps *)

Section dispatch.
Context `{Numpy, !Fslpy, !Dipy, !AFQ_data, !AFQ_calls}.

(** [self.gen_mapping], by the class of [self]. *)
Definition gen_mapping : GeneratedMapMixin.gen_mapping_method :=
  fun self =>
    match type self with
    | C_SynMap => SynMap.gen_mapping self
    | C_SlrMap => SlrMap.gen_mapping self
    | C_AffMap => AffMap.gen_mapping self
    end.

(** [self.get_for_row], inherited from the mixin by all three classes. *)
Definition get_for_row : instance -> AFQ -> row -> M state mapping :=
  GeneratedMapMixin.get_for_row gen_mapping.

(** [self.find_path], by the class of [self]. *)
Definition find_path (self : instance) :
    BIDSLayout -> string -> string -> string -> M (instance * state) unit :=
  match type self with
  | C_SynMap => SynMap.find_path
  | C_SlrMap => SlrMap.find_path
  | C_AffMap => AffMap.find_path
  end.
End dispatch.

(** ** A small concrete world

    Integers stand for the scalars, every collaborator call returns, and
    the one warp file on disk holds a 1x1x2 displacement field.  The
    examples at the end run the definitions in it. *)

Module Toy.
Definition numpy : Numpy :=
  Build_Numpy Z 0%Z 1%Z Z.add Z.sub id id Some.

Definition fslpy : @Fslpy numpy :=
  @Build_Fslpy numpy
    (ndarray Z) string
    (fun _ => Some (mk_ndarray [0%Z] []))
    (fun img => Some (@get_fdata numpy img))
    id
    (fun warp _ _ => Some warp)
    (fun img _ => Some img).

Definition fixed_parameters : list (@float64 numpy) :=
  ([1; 1; 2; 0; 0; 0; 1; 1; 1; 1; 0; 0; 0; 1; 0; 0; 0; 1]%Z : list Z).
Definition forward_field : list (@float64 numpy) :=
  ([10; 11; 12; 20; 21; 22]%Z : list Z).
Definition affine_parameters : list (@float64 numpy) :=
  ([1; 2; 3; 4; 5; 6; 7; 8; 9; 100; 200; 300]%Z : list Z).

Definition warp_f5 : gmap string (gmap string (gmap string (list (@float64 numpy)))) :=
  {[ "TransformGroup" :=
     {[ "1" := {[ "TransformFixedParameters" := fixed_parameters;
                  "TransformParameters" := forward_field ]};
        "2" := {[ "TransformParameters" := affine_parameters ]} ]} ]}.

Definition h5py : @H5py numpy :=
  @Build_H5py numpy
    (fun path => if bool_decide (path = "missing.h5") then None
                 else Some warp_f5).

Definition dipy : @Dipy numpy :=
  @Build_Dipy numpy
    (ndarray Z)
    Some
    (fun _ _ kw => kw !! "interp")
    (fun self _ _ => Some (@VArray numpy self))
    (option (ndarray Z))
    (fun _ a => Some a)
    (fun moving _ _ => Some (@affine numpy moving))
    (fun _ _ _ _ prealign _ => Some prealign).

Definition afq_data : AFQ_data :=
  Build_AFQ_data unit (@Nifti1Image numpy) unit unit string.

Definition afq_calls : @AFQ_calls numpy fslpy dipy afq_data :=
  @Build_AFQ_calls numpy fslpy dipy afq_data
    (fun _ path _ suffix session subject _ =>
       Some (path +:+ "/" +:+ session +:+ "/" +:+ subject +:+ "_" +:+ suffix))
    (fun afq => afq)
    (fun _ => tt)
    (fun _ => tt)
    (fun _ r suffix => subject r +:+ suffix)
    (fun afq _ _ _ => Some (afq, tt))
    (fun _ _ _ _ _ _ _ => Some "slr")
    (fun disp dwi _ _ =>
       match disp with
       | DispImage _ => Some dwi
       | DispFile path _ => Some path
       end)
    Z.of_nat.

(** A template of shape 1x1x2 with the identity as its affine. *)
Definition eye4 : ndarray Z :=
  mk_ndarray [4; 4]%Z [1; 0; 0; 0; 0; 1; 0; 0; 0; 0; 1; 0; 0; 0; 0; 1]%Z.
Definition template : @Nifti1Image numpy :=
  @mk_Nifti1Image numpy (mk_ndarray [1; 1; 2]%Z [0; 0]%Z) eye4.

Definition sub01 : row := mk_row "01" "sub-01" "sub-01_dwi.nii.gz".

(** The pipeline objects that carry these templates. *)
Definition afq_object : @AFQ afq_data := template.
Definition no_streamlines : @Streamlines afq_data := tt.
Definition built (name : string) : @RegistrationMapping afq_data := name.

(** An [ItkMap] whose [find_path] has found the warp of [sub01]. *)
Definition itk_map : ItkMap.t :=
  ItkMap.mk "xfm" ∅ {[ "01" := {[ "sub-01" := "sub-01_xfm.h5" ]} ]}.

(** A store with nothing on disk and the two timers at zero. *)
Definition fresh : @state numpy fslpy dipy afq_data :=
  mk_state ∅ {[ "Registration" := 0%Z; "Registration_pre_align" := 0%Z ]} 0 [].

(** A [SynMap] with its default arguments, and the store after its first
    run on [sub01]. *)
Definition syn_map : @instance numpy := @SynMap.__init__ numpy None None None.
Definition after_first_run : @state numpy fslpy dipy afq_data :=
  (@get_for_row numpy fslpy dipy afq_data afq_calls syn_map afq_object sub01 fresh).2.
End Toy.

(** ** Vocabulary of the properties *)

(** The two-method contract of a mapping. *)
Definition exposes_interface `{Numpy, !Fslpy, !Dipy, !AFQ_data} (m : mapping) : Prop :=
  hasattr m "transform" = true /\ hasattr m "transform_inverse" = true.

(** [fnames[session][subject]], when both keys are there. *)
Definition lookup2 {V} (fnames : gmap string (gmap string V))
    (session subject : string) : option V :=
  fnames !! session ≫= (.!! subject).


(** The events a run added to the trace. *)
Definition new_events `{Numpy, !Fslpy, !Dipy, !AFQ_data} (before after : state) : list event :=
  drop (length (trace before)) (trace after).

(** ** The table of file names kept by [find_path] *)

Section fnames_table.
Context {V : Type}.
Implicit Types (fnames : gmap string (gmap string V)) (session subject : string).

Lemma lookup2_ensure_session fnames session ses' sub' :
  lookup2 (ensure_session session fnames) ses' sub' = lookup2 fnames ses' sub'.
Proof.
  unfold lookup2, ensure_session. case_bool_decide as Hs; [done|].
  apply eq_None_not_Some in Hs.
  destruct (decide (session = ses')) as [->|Hne].
  - by rewrite lookup_insert_eq, Hs.
  - by rewrite lookup_insert_ne.
Qed.

Lemma ensure_session_is_Some fnames session :
  is_Some (ensure_session session fnames !! session).
Proof.
  unfold ensure_session. case_bool_decide as Hs; [done|].
  rewrite lookup_insert_eq. eauto.
Qed.

Lemma store_fname_ensure fnames session subject (v : V) :
  ∃ fnames', store_fname session subject v (ensure_session session fnames) = Ok fnames'
    ∧ lookup2 fnames' session subject = Some v
    ∧ ∀ ses' sub', (ses', sub') ≠ (session, subject) →
        lookup2 fnames' ses' sub' = lookup2 fnames ses' sub'.
Proof.
  destruct (ensure_session_is_Some fnames session) as [inner Hinner].
  unfold store_fname, getitem. rewrite Hinner. simpl.
  eexists; split; [done|]. split.
  - unfold lookup2. rewrite lookup_insert_eq. simpl. by rewrite lookup_insert_eq.
  - intros ses' sub' Hne.
    rewrite <- (lookup2_ensure_session fnames session ses' sub').
    unfold lookup2. destruct (decide (session = ses')) as [->|Hs].
    + rewrite lookup_insert_eq, Hinner. simpl.
      rewrite lookup_insert_ne; [done|congruence].
    + by rewrite lookup_insert_ne.
Qed.
End fnames_table.

(** ** Construction and the optional dependencies *)

Lemma load_module_flags (env : site) :
  load_module env = Ok (mk_globals (fslpy_installed env) (h5py_installed env)).
Proof. by destruct env as [[] []]. Qed.

(** C4: constructing a [FnirtMap] raises [ImportError] exactly when fslpy
    is not installed, constructing an [ItkMap] raises [ImportError] exactly
    when h5py is not installed, and otherwise the constructor returns an
    object holding the given suffixes and filters (an omitted filter is the
    empty dict) and an empty [fnames]. *)
Theorem C4_import_error_iff_dependency_missing (env : site) :
  ∃ g, load_module env = Ok g
    ∧ (∀ warp_suffix space_suffix warp_filters space_filters,
         let made := FnirtMap.__init__ g warp_suffix space_suffix
                       warp_filters space_filters in
         ((∃ msg, made = Raise (ImportError msg)) ↔ fslpy_installed env = false)
         ∧ (fslpy_installed env = true →
            made = Ok (FnirtMap.mk warp_suffix space_suffix
                         (default ∅ warp_filters) (default ∅ space_filters) ∅)))
    ∧ (∀ warp_suffix warp_filters,
         let made := ItkMap.__init__ g warp_suffix warp_filters in
         ((∃ msg, made = Raise (ImportError msg)) ↔ h5py_installed env = false)
         ∧ (h5py_installed env = true →
            made = Ok (ItkMap.mk warp_suffix (default ∅ warp_filters) ∅))).
Proof.
  eexists. split; [apply load_module_flags|].
  unfold FnirtMap.__init__, ItkMap.__init__, or_empty. simpl.
  split; intros; (split; [split|]).
  - intros [msg Hmsg]. by destruct (fslpy_installed env).
  - intros ->. simpl. eauto.
  - by intros ->.
  - intros [msg Hmsg]. by destruct (h5py_installed env).
  - intros ->. simpl. eauto.
  - by intros ->.
Qed.

(** ** The two conformed mapping classes *)

Section conformed.
Context `{Numpy, !Fslpy, !Dipy}.

(** C6: [ConformedFnirtMapping.transform] raises [NotImplementedError] on
    every input, while [transform_inverse] returns the data of the deformed
    image whenever fslpy accepts the input: it returns an array exactly
    when wrapping the float32 data and applying the deformation both
    return, and the array is then the deformed image's data. *)
Theorem C6_fnirt_transform_not_implemented
    (warp : DeformationField) (ref_affine data : ndarray float64) (kw : kwargs) :
  (∃ msg, ConformedFnirtMapping.transform warp ref_affine data kw
          = Raise (NotImplementedError msg))
  ∧ ∀ xform_data,
      ConformedFnirtMapping.transform_inverse warp ref_affine data kw = Ok xform_data
      ↔ ∃ data_img deformed,
          Image_wrap (mk_Nifti1Image
            (ConformedFnirtMapping.astype_float32 data) ref_affine) = Some data_img
          ∧ applyDeformation data_img warp = Some deformed
          ∧ xform_data = Image_data deformed.
Proof.
  split; [by eexists|]. intros xform_data.
  unfold ConformedFnirtMapping.transform_inverse, call, rbind.
  destruct (Image_wrap _) as [data_img|]; simpl.
  - destruct (applyDeformation data_img warp) as [deformed|] eqn:Hdef; simpl.
    + split; [intros [= <-]; eauto|].
      intros (img & out & [= <-] & Hout & ->). congruence.
    + split; [done|]. intros (img & out & [= <-] & Hout & _). congruence.
  - split; [done|]. by intros (img & out & Himg & _).
Qed.

(** C8: [ConformedAffineMapping] swaps the directions of [AffineMap].  A
    call of [transform] with [interpolation=i] is the call of
    [AffineMap.transform_inverse] on the same positional and other keyword
    arguments with [interp=i]; [transform_inverse] likewise calls
    [AffineMap.transform]; a call without [interpolation] passes
    [interp='linear']. *)
Theorem C8_affine_directions_swapped
    (self : AffineMap) (args : list pyval) (keywords : kwargs) (i : pyval) :
  let others := delete "interpolation" keywords in
  ConformedAffineMapping.transform self args (<["interpolation" := i]> keywords)
    = call "AffineMap.transform_inverse"
        (AffineMap_transform_inverse self args (<["interp" := i]> others))
  ∧ ConformedAffineMapping.transform_inverse self args (<["interpolation" := i]> keywords)
    = call "AffineMap.transform"
        (AffineMap_transform self args (<["interp" := i]> others))
  ∧ ConformedAffineMapping.transform self args others
    = call "AffineMap.transform_inverse"
        (AffineMap_transform_inverse self args (<["interp" := VStr "linear"]> others))
  ∧ ConformedAffineMapping.transform_inverse self args others
    = call "AffineMap.transform"
        (AffineMap_transform self args (<["interp" := VStr "linear"]> others)).
Proof.
  unfold ConformedAffineMapping.transform, ConformedAffineMapping.transform_inverse,
    ConformedAffineMapping.bind_keywords. simpl.
  rewrite lookup_insert_eq, delete_insert_eq, lookup_delete_eq. simpl.
  by rewrite delete_delete_eq.
Qed.
End conformed.

(** ** Maps found on disk: the [fnames] table *)

Section found_maps.
Context `{Numpy, !Fslpy, !H5py, !Dipy, !AFQ_data, !AFQ_calls}.

Lemma FnirtMap_find_path_run (self : FnirtMap.t) bids_layout from_path subject session :
  let run := FnirtMap.find_path bids_layout from_path subject session self in
  let warp := find_file bids_layout from_path (FnirtMap.warp_filters self)
                (FnirtMap.warp_suffix self) session subject None in
  let space := find_file bids_layout from_path (FnirtMap.space_filters self)
                 (FnirtMap.space_suffix self) session subject None in
  (∀ ses' sub', (ses', sub') ≠ (session, subject) →
     lookup2 (FnirtMap.fnames run.2) ses' sub' = lookup2 (FnirtMap.fnames self) ses' sub')
  ∧ match warp, space with
    | Some w, Some sp =>
        run.1 = Ok tt ∧ lookup2 (FnirtMap.fnames run.2) session subject = Some (w, sp)
    | _, _ =>
        run.1 = Raise (Raised "find_file")
        ∧ lookup2 (FnirtMap.fnames run.2) session subject
          = lookup2 (FnirtMap.fnames self) session subject
    end.
Proof.
  unfold FnirtMap.find_path, bind, modify, gets, lift, call. simpl.
  destruct (find_file _ _ (FnirtMap.warp_filters self) _ _ _ _) as [w|]; simpl.
  - destruct (find_file _ _ (FnirtMap.space_filters self) _ _ _ _) as [sp|]; simpl.
    + destruct (store_fname_ensure (FnirtMap.fnames self) session subject (w, sp))
        as (fnames' & -> & Hstored & Hframe). simpl. auto.
    + split; [|split; [done|]]; intros; apply lookup2_ensure_session.
  - split; [|split; [done|]]; intros; apply lookup2_ensure_session.
Qed.

Lemma ItkMap_find_path_run (self : ItkMap.t) bids_layout from_path subject session :
  let run := ItkMap.find_path bids_layout from_path subject session self in
  let warp := find_file bids_layout from_path (ItkMap.warp_filters self)
                (ItkMap.warp_suffix self) session subject (Some "h5") in
  (∀ ses' sub', (ses', sub') ≠ (session, subject) →
     lookup2 (ItkMap.fnames run.2) ses' sub' = lookup2 (ItkMap.fnames self) ses' sub')
  ∧ match warp with
    | Some w =>
        run.1 = Ok tt ∧ lookup2 (ItkMap.fnames run.2) session subject = Some w
    | None =>
        run.1 = Raise (Raised "find_file")
        ∧ lookup2 (ItkMap.fnames run.2) session subject
          = lookup2 (ItkMap.fnames self) session subject
    end.
Proof.
  unfold ItkMap.find_path, bind, modify, gets, lift, call. simpl.
  destruct (find_file _ _ (ItkMap.warp_filters self) _ _ _ _) as [w|]; simpl.
  - destruct (store_fname_ensure (ItkMap.fnames self) session subject w)
      as (fnames' & -> & Hstored & Hframe). simpl. auto.
  - split; [|split; [done|]]; intros; apply lookup2_ensure_session.
Qed.

(** C10: [get_for_row] of [FnirtMap] and of [ItkMap] reads
    [self.fnames[row['ses']][row['subject']]] and raises [KeyError] (on the
    session or on the subject) when no entry is stored for the pair.
    [find_path] leaves the entries of every other pair as they were;
    whenever the file search returns, [find_path] returns too and the
    entry of (session, subject) is then exactly what the search found; it
    raises only what the search raised, and then stores no entry. *)
Theorem C10_get_for_row_needs_find_path :
  (∀ (self : FnirtMap.t) afq_object r,
     lookup2 (FnirtMap.fnames self) (ses r) (subject r) = None →
     ∃ key, (key = ses r ∨ key = subject r)
       ∧ FnirtMap.get_for_row self afq_object r = Raise (KeyError key))
  ∧ (∀ (self : ItkMap.t) afq_object r,
     lookup2 (ItkMap.fnames self) (ses r) (subject r) = None →
     ∃ key, (key = ses r ∨ key = subject r)
       ∧ ItkMap.get_for_row self afq_object r = Raise (KeyError key))
  ∧ (∀ (self : FnirtMap.t) bids_layout from_path subject session,
     let run := FnirtMap.find_path bids_layout from_path subject session self in
     let warp := find_file bids_layout from_path (FnirtMap.warp_filters self)
                   (FnirtMap.warp_suffix self) session subject None in
     let space := find_file bids_layout from_path (FnirtMap.space_filters self)
                    (FnirtMap.space_suffix self) session subject None in
     (∀ ses' sub', (ses', sub') ≠ (session, subject) →
        lookup2 (FnirtMap.fnames run.2) ses' sub'
        = lookup2 (FnirtMap.fnames self) ses' sub')
     ∧ (∀ nearest_warp nearest_space,
          warp = Some nearest_warp → space = Some nearest_space →
          run.1 = Ok tt
          ∧ lookup2 (FnirtMap.fnames run.2) session subject
            = Some (nearest_warp, nearest_space))
     ∧ (run.1 = Ok tt →
        ∃ nearest_warp nearest_space,
          warp = Some nearest_warp ∧ space = Some nearest_space
          ∧ lookup2 (FnirtMap.fnames run.2) session subject
            = Some (nearest_warp, nearest_space))
     ∧ (run.1 ≠ Ok tt →
        (warp = None ∨ space = None)
        ∧ run.1 = Raise (Raised "find_file")
        ∧ lookup2 (FnirtMap.fnames run.2) session subject
          = lookup2 (FnirtMap.fnames self) session subject))
  ∧ (∀ (self : ItkMap.t) bids_layout from_path subject session,
     let run := ItkMap.find_path bids_layout from_path subject session self in
     let warp := find_file bids_layout from_path (ItkMap.warp_filters self)
                   (ItkMap.warp_suffix self) session subject (Some "h5") in
     (∀ ses' sub', (ses', sub') ≠ (session, subject) →
        lookup2 (ItkMap.fnames run.2) ses' sub'
        = lookup2 (ItkMap.fnames self) ses' sub')
     ∧ (∀ nearest_warp,
          warp = Some nearest_warp →
          run.1 = Ok tt
          ∧ lookup2 (ItkMap.fnames run.2) session subject = Some nearest_warp)
     ∧ (run.1 = Ok tt →
        ∃ nearest_warp,
          warp = Some nearest_warp
          ∧ lookup2 (ItkMap.fnames run.2) session subject = Some nearest_warp)
     ∧ (run.1 ≠ Ok tt →
        warp = None
        ∧ run.1 = Raise (Raised "find_file")
        ∧ lookup2 (ItkMap.fnames run.2) session subject
          = lookup2 (ItkMap.fnames self) session subject)).
Proof.
  split; [|split; [|split]].
  - intros self afq_object r Hnone. unfold lookup2 in Hnone.
    unfold FnirtMap.get_for_row, getitem.
    destruct (FnirtMap.fnames self !! ses r) as [inner|]; simpl in *;
      [rewrite Hnone|]; simpl; eauto.
  - intros self afq_object r Hnone. unfold lookup2 in Hnone.
    unfold ItkMap.get_for_row, getitem.
    destruct (ItkMap.fnames self !! ses r) as [inner|]; simpl in *;
      [rewrite Hnone|]; simpl; eauto.
  - intros self bids_layout from_path subject session run warp space.
    pose proof (FnirtMap_find_path_run self bids_layout from_path subject session)
      as [Hframe Hrun]. fold run warp space in Hframe, Hrun.
    split; [done|].
    destruct warp as [w|]; [destruct space as [sp|]|]; destruct Hrun as [Hres Hlook];
      rewrite Hres, Hlook; split_and!.
    all: try (intros ? ? [= <-] [= <-] || intros ? ? [=] || intros ? ? ? [=]).
    all: try (intros Hcontra; try done; try (by destruct Hcontra)).
    all: eauto 6.
  - intros self bids_layout from_path subject session run warp.
    pose proof (ItkMap_find_path_run self bids_layout from_path subject session)
      as [Hframe Hrun]. fold run warp in Hframe, Hrun.
    split; [done|].
    destruct warp as [w|]; destruct Hrun as [Hres Hlook];
      rewrite Hres, Hlook; split_and!.
    all: try (intros ? [= <-] || intros ? [=]).
    all: try (intros Hcontra; try done; try (by destruct Hcontra)).
    all: eauto 6.
Qed.
End found_maps.

(** ** Runs of store-passing code

    [step s evs s'] relates the store before and after a run that made the
    calls [evs]: the trace grew by [evs], every path written by a call in
    [evs] exists afterwards, and no other path changed.  [runs m s Q] says
    that running [m] from [s] is such a step, with [Q] holding of the calls
    made, the outcome and the final store. *)

Section runs.
Context `{Numpy, !Fslpy, !Dipy, !AFQ_data, !AFQ_calls}.

Definition written (e : event) : list string :=
  match e with
  | Np_save p | Write_mapping p | Write_json p _ => [p]
  | Call_affine_registration | Call_gen_mapping => []
  end.

Definition paths_written (evs : list event) : list string := evs ≫= written.

Record step (s : state) (evs : list event) (s' : state) : Prop := mk_step {
  step_trace : trace s' = trace s ++ evs;
  step_frame : ∀ p, p ∉ paths_written evs → fs s' !! p = fs s !! p;
  step_written : ∀ p, p ∈ paths_written evs → is_Some (fs s' !! p);
}.

Definition runs {A} (m : M state A) (s : state)
    (Q : list event → result A → state → Prop) : Prop :=
  ∃ evs, step s evs (m s).2 ∧ Q evs (m s).1 (m s).2.

Lemma step_keeps s evs s' p :
  step s evs s' → is_Some (fs s !! p) → is_Some (fs s' !! p).
Proof.
  intros Hstep Hp. destruct (decide (p ∈ paths_written evs)) as [Hin|Hnin].
  - by apply (step_written _ _ _ Hstep).
  - by rewrite (step_frame _ _ _ Hstep).
Qed.

Lemma step_absent s evs s' p :
  step s evs s' → fs s' !! p = None → fs s !! p = None.
Proof.
  intros Hstep Hp. apply eq_None_not_Some. intros Hsome.
  apply (step_keeps _ _ _ _ Hstep) in Hsome. rewrite Hp in Hsome.
  by destruct Hsome.
Qed.

Lemma step_silent s s' :
  fs s' = fs s → trace s' = trace s → step s [] s'.
Proof.
  intros Hfs Htrace. split.
  - by rewrite Htrace, app_nil_r.
  - intros. by rewrite Hfs.
  - intros p Hp. by apply elem_of_nil in Hp.
Qed.

Lemma step_write s s' e p f :
  written e = [p] → fs s' = <[p := f]> (fs s) → trace s' = trace s ++ [e] →
  step s [e] s'.
Proof.
  intros Hw Hfs Htrace.
  assert (paths_written [e] = [p]) as Hpaths.
  { unfold paths_written. simpl. by rewrite Hw, app_nil_r. }
  split; [done|..]; intros q; rewrite Hpaths, Hfs; intros Hq.
  - rewrite lookup_insert_ne; [done|]. intros ->. apply Hq. by left.
  - apply list_elem_of_singleton in Hq as ->. rewrite lookup_insert_eq. eauto.
Qed.

Lemma step_trans s evs1 s1 evs2 s2 :
  step s evs1 s1 → step s1 evs2 s2 → step s (evs1 ++ evs2) s2.
Proof.
  intros Hfst Hsnd. split.
  - rewrite (step_trace _ _ _ Hsnd), (step_trace _ _ _ Hfst). by rewrite app_assoc.
  - intros p Hp. unfold paths_written in Hp. rewrite bind_app in Hp.
    rewrite (step_frame _ _ _ Hsnd), (step_frame _ _ _ Hfst); [done|..];
      intros Hin; apply Hp; apply elem_of_app; auto.
  - intros p Hp. unfold paths_written in Hp. rewrite bind_app in Hp.
    apply elem_of_app in Hp as [Hp|Hp].
    + apply (step_keeps _ _ _ _ Hsnd). by apply (step_written _ _ _ Hfst).
    + by apply (step_written _ _ _ Hsnd).
Qed.

Lemma new_events_step s evs s' : step s evs s' → new_events s s' = evs.
Proof.
  intros Hstep. unfold new_events. rewrite (step_trace _ _ _ Hstep).
  by rewrite drop_app_length.
Qed.
End runs.

Section rules.
Context `{Numpy, !Fslpy, !Dipy, !AFQ_data, !AFQ_calls}.
Context {A : Type}.
Implicit Types (s : state) (Q : list event → result A → state → Prop).

Lemma runs_silent (m : M state A) s Q :
  fs (m s).2 = fs s → trace (m s).2 = trace s →
  Q [] (m s).1 (m s).2 → runs m s Q.
Proof. intros Hfs Htrace HQ. exists []. split; [by apply step_silent|done]. Qed.

Lemma runs_ret (a : A) s Q : Q [] (Ok a) s → runs (ret a) s Q.
Proof. by apply (runs_silent (ret a)). Qed.

Lemma runs_raise e s Q : Q [] (Raise e) s → runs (raise e) s Q.
Proof. by apply (runs_silent (raise e)). Qed.

Lemma runs_lift (r : result A) s Q : Q [] r s → runs (lift r) s Q.
Proof. by apply (runs_silent (lift r)). Qed.

Lemma runs_gets (f : state → A) s Q : Q [] (Ok (f s)) s → runs (gets f) s Q.
Proof. by apply (runs_silent (gets f)). Qed.

Lemma runs_bind {B} (m : M state B) (k : B → M state A) s Q :
  runs m s (fun evs1 r s1 =>
    step s evs1 s1 →
    match r with
    | Ok b => runs (k b) s1 (fun evs2 r' s2 => Q (evs1 ++ evs2) r' s2)
    | Raise e => Q evs1 (Raise e) s1
    end) →
  runs (bind m k) s Q.
Proof.
  intros (evs1 & Hstep & Hk). specialize (Hk Hstep). unfold runs, bind.
  destruct (m s) as [[b|e] s1]; simpl in *.
  - destruct Hk as (evs2 & Hstep2 & HQ). exists (evs1 ++ evs2).
    split; [by eapply step_trans|done].
  - by exists evs1.
Qed.

Lemma runs_consequence (m : M state A) s Q Q' :
  runs m s Q →
  (∀ evs r s', step s evs s' → Q evs r s' → Q' evs r s') →
  runs m s Q'.
Proof. intros (evs & Hstep & HQ) Himp. exists evs. eauto. Qed.

Lemma runs_run (m : M state A) s Q :
  runs m s Q →
  step s (new_events s (m s).2) (m s).2 ∧ Q (new_events s (m s).2) (m s).1 (m s).2.
Proof. intros (evs & Hstep & HQ). by rewrite (new_events_step _ _ _ Hstep). Qed.
End rules.

Section store_rules.
Context `{Numpy, !Fslpy, !Dipy, !AFQ_data, !AFQ_calls}.
Implicit Types (s : state).

Lemma runs_op_exists path s Q :
  Q [] (Ok (bool_decide (is_Some (fs s !! path)))) s → runs (op_exists path) s Q.
Proof. by apply (runs_silent (op_exists path)). Qed.

Lemma runs_time s Q :
  (∀ t s', step s [] s' → Q [] (Ok t) s') → runs time s Q.
Proof.
  intros HQ. apply (runs_silent time); [done..|]. apply HQ. by apply step_silent.
Qed.

Lemma runs_add_elapsed key start_time s Q :
  (∀ r s', step s [] s' → Q [] r s') → runs (add_elapsed key start_time) s Q.
Proof.
  intros HQ.
  assert (fs (add_elapsed key start_time s).2 = fs s
          ∧ trace (add_elapsed key start_time s).2 = trace s) as [Hfs Htrace].
  { unfold add_elapsed, bind, gets, lift, modify, time. simpl.
    by destruct (getitem (timing s) key). }
  apply runs_silent; [done..|]. apply HQ. by apply step_silent.
Qed.

Lemma runs_emit e s Q :
  written e = [] →
  (∀ s', step s [e] s' → Q [e] (Ok tt) s') → runs (emit e) s Q.
Proof.
  intros Hw HQ. exists [e]. split; [|apply HQ]; (split; [done|..]);
    unfold paths_written; simpl; rewrite Hw; simpl; intros p Hp;
    solve [done | by apply elem_of_nil in Hp].
Qed.

Lemma runs_np_save path a s Q :
  (∀ s', step s [Np_save path] s' → fs s' !! path = Some (NpyFile a) →
         Q [Np_save path] (Ok tt) s') →
  runs (np_save path a) s Q.
Proof.
  intros HQ. exists [Np_save path]. split; [|apply HQ].
  1,2: by eapply step_write.
  simpl. by rewrite lookup_insert_eq.
Qed.

Lemma runs_write_json fname meta s Q :
  (∀ s', step s [Write_json fname meta] s' →
         fs s' !! fname = Some (JsonFile meta) →
         Q [Write_json fname meta] (Ok tt) s') →
  runs (write_json fname meta) s Q.
Proof.
  intros HQ. exists [Write_json fname meta]. split; [|apply HQ].
  1,2: by eapply step_write.
  simpl. by rewrite lookup_insert_eq.
Qed.

Lemma runs_write_mapping m fname s Q :
  (∀ s', step s [Write_mapping fname] s' →
         fs s' !! fname = Some (MappingFile m) →
         Q [Write_mapping fname] (Ok tt) s') →
  runs (reg.write_mapping m fname) s Q.
Proof.
  intros HQ. exists [Write_mapping fname]. split; [|apply HQ].
  1,2: by eapply step_write.
  simpl. by rewrite lookup_insert_eq.
Qed.

Lemma runs_np_load path s Q :
  (∀ r, (∀ a, r = Ok a → fs s !! path = Some (NpyFile a)) → Q [] r s) →
  runs (np_load path) s Q.
Proof.
  intros HQ. apply runs_silent.
  1,2: unfold np_load, bind, gets; simpl; by repeat case_match.
  replace (np_load path s).2 with s by
    (unfold np_load, bind, gets; simpl; by repeat case_match).
  apply HQ. intros a. unfold np_load, bind, gets. simpl.
  repeat case_match; simpl; congruence.
Qed.

Lemma runs_read_mapping_from disp domain_img codomain_img prealign s Q :
  (∀ r, (∀ m, r = Ok m →
           ∃ content built,
             fs s !! disp = Some content
             ∧ build_mapping (DispFile disp content) domain_img codomain_img
                 prealign = Some built
             ∧ m = OpaqueMapping built) →
        Q [] r s) →
  runs (reg.read_mapping_from disp domain_img codomain_img prealign) s Q.
Proof.
  intros HQ.
  assert ((reg.read_mapping_from disp domain_img codomain_img prealign s).2 = s) as Hs.
  { unfold reg.read_mapping_from, bind, gets. simpl. by repeat case_match. }
  apply runs_silent; rewrite Hs; [done..|].
  apply HQ. intros m. unfold reg.read_mapping_from, bind, gets, lift, call, raise.
  simpl. destruct (fs s !! disp) as [content|]; simpl; [|done].
  destruct (build_mapping _ _ _ _) as [built|] eqn:Hbuilt; simpl; [|done].
  intros [= <-]. eauto.
Qed.
End store_rules.

(** ** The cache of generated maps *)

Section cache_vocabulary.
Context `{Numpy, !Fslpy, !Dipy, !AFQ_data, !AFQ_calls}.
Context (afq_object : AFQ) (r : row).

Definition prealign_file : string :=
  _get_fname afq_object r "_prealign_from-DWI_to-MNI_xfm.npy".
Definition prealign_meta : string :=
  _get_fname afq_object r "_prealign_from-DWI_to-MNI_xfm.json".
Definition rigid : gmap string string := {[ "type" := "rigid" ]}.
Definition displacementfield : gmap string string :=
  {[ "type" := "displacementfield" ]}.

(** The calls one run of [prealign] can make from store [s]: none, or,
    only if the prealign file is not on disk, the affine registration,
    followed (if it returned) by the save and the sidecar. *)
Definition prealign_events (s : state) (evs : list event) : Prop :=
  evs = []
  ∨ (fs s !! prealign_file = None
     ∧ (evs = [Call_affine_registration]
        ∨ evs = [Call_affine_registration; Np_save prealign_file;
                 Write_json prealign_meta rigid])).

(** The calls one run of [get_for_row] can make from store [s]: those of
    [prealign], then, only if the mapping file is not on disk, the call of
    [gen_mapping] with the calls made inside it, followed (if it returned
    and the timer was there) by the write of the mapping and its sidecar. *)
Definition get_for_row_events (mapping_file meta_fname : string)
    (s : state) (evs : list event) : Prop :=
  ∃ pre inner,
    prealign_events s pre ∧ prealign_events s inner
    ∧ (evs = pre
       ∨ (fs s !! mapping_file = None
          ∧ (evs = pre ++ Call_gen_mapping :: inner
             ∨ evs = pre ++ Call_gen_mapping :: inner
                     ++ [Write_mapping mapping_file;
                         Write_json meta_fname displacementfield]))).
End cache_vocabulary.

(** Refutes membership of an event in a list of other events. *)
Ltac not_member :=
  let Hin := fresh "Hin" in
  intros Hin;
  repeat (apply elem_of_cons in Hin as [Hin|Hin]; [discriminate Hin|]);
  by apply elem_of_nil in Hin.

Ltac run1 :=
  lazymatch goal with
  | |- runs (bind _ _) _ _ => apply runs_bind
  | |- runs (ret _) _ _ => apply runs_ret
  | |- runs (raise _) _ _ => apply runs_raise
  | |- runs (lift _) _ _ => apply runs_lift
  | |- runs (gets _) _ _ => apply runs_gets
  | |- runs (op_exists _) _ _ => apply runs_op_exists
  | |- runs time _ _ => apply runs_time; intros ? ?
  | |- runs (add_elapsed _ _) _ _ => apply runs_add_elapsed; intros ? ?
  | |- runs (emit _) _ _ => apply runs_emit; [done|intros ?]
  | |- runs (np_save _ _) _ _ => apply runs_np_save; intros ?
  | |- runs (write_json _ _) _ _ => apply runs_write_json; intros ?
  | |- runs (reg.write_mapping _ _) _ _ => apply runs_write_mapping; intros ?
  | |- runs (np_load _) _ _ => apply runs_np_load; intros ? ?
  | |- runs (reg.read_mapping_from _ _ _ _) _ _ =>
      apply runs_read_mapping_from; intros ? ?
  | |- runs (match ?x with _ => _ end) _ _ => destruct x eqn:?; simpl
  | |- match ?x with _ => _ end => destruct x eqn:?; simpl
  | |- _ → _ => intros ?
  end.

Section cache.
Context `{Numpy, !Fslpy, !Dipy, !AFQ_data, !AFQ_calls}.
Context (self : instance) (afq_object : AFQ) (r : row).

Lemma exists_false (s : state) p :
  negb (bool_decide (is_Some (fs s !! p))) = true → fs s !! p = None.
Proof.
  intros Hb. apply negb_true_iff, bool_decide_eq_false in Hb.
  by apply eq_None_not_Some.
Qed.

Lemma prealign_events_earlier s evs s' pre :
  step s evs s' → prealign_events afq_object r s' pre →
  prealign_events afq_object r s pre.
Proof.
  intros Hstep [->|[Habsent Hpre]]; [by left|right].
  split; [|done]. by eapply step_absent.
Qed.

Lemma prealign_events_no_mapping s evs :
  prealign_events afq_object r s evs →
  (Call_gen_mapping ∉ evs) ∧ (∀ p, Write_mapping p ∉ evs).
Proof. intros [->|[_ [->| ->]]]; (split; [|intros p]); not_member. Qed.

Lemma step_unchanged s s' p : step s [] s' → fs s' !! p = fs s !! p.
Proof. intros Hstep. apply (step_frame _ _ _ Hstep). apply not_elem_of_nil. Qed.

Lemma prealign_runs s :
  runs (GeneratedMapMixin.prealign self afq_object r) s (fun evs res s' =>
    prealign_events afq_object r s evs
    ∧ (∀ x, res = Ok x →
         x = prealign_file afq_object r
         ∧ is_Some (fs s' !! prealign_file afq_object r))
    ∧ (Np_save (prealign_file afq_object r) ∈ evs →
       fs s' !! prealign_meta afq_object r = Some (JsonFile rigid))).
Proof.
  unfold GeneratedMapMixin.prealign.
  fold (prealign_file afq_object r) (prealign_meta afq_object r) rigid.
  repeat run1; simpl.
  all: try (split; [by left|]).
  all: try (split; [right; split; [by apply exists_false|auto]|]).
  all: split; [intros x [= <-]; (split; [done|])|].
  all: try not_member.
  - eauto 8 using step_keeps, mk_is_Some.
  - intros _. by erewrite step_unchanged.
  - intros _. by erewrite step_unchanged.
  - apply negb_false_iff, bool_decide_eq_true in Heqb. done.
Qed.

Lemma gen_mapping_runs tmpl tsls subj ssls reg_prealign s :
  runs (gen_mapping self afq_object r tmpl tsls subj ssls reg_prealign) s
    (fun evs res s' => prealign_events afq_object r s evs).
Proof.
  unfold gen_mapping. destruct (type self).
  - unfold SynMap.gen_mapping. repeat run1; by left.
  - unfold SlrMap.gen_mapping. repeat run1; by left.
  - unfold AffMap.gen_mapping. run1.
    eapply runs_consequence; [apply prealign_runs|]. simpl.
    intros evs res s' Hstep (Hevs & Hres & _) _. destruct res as [x|e]; [|done].
    repeat run1; simpl; by rewrite app_nil_r.
Qed.
Lemma get_for_row_runs s :
  runs (get_for_row self afq_object r) s (fun evs res s' =>
    match (try! extension := getattr self "extension" in
           GeneratedMapMixin.get_fnames extension afq_object r) with
    | Ok (mapping_file, meta_fname) =>
        get_for_row_events afq_object r mapping_file meta_fname s evs
        ∧ (∀ m, res = Ok m →
             ∃ content inv built,
               fs s' !! mapping_file = Some content
               ∧ build_mapping (DispFile mapping_file content) (dwi_file r)
                   (reg_template_img afq_object) inv = Some built
               ∧ m = OpaqueMapping built)
        ∧ (Write_mapping mapping_file ∈ evs →
           fs s' !! meta_fname = Some (JsonFile displacementfield))
    | Raise e => evs = [] ∧ res = Raise e
    end).
Proof.
  unfold get_for_row, GeneratedMapMixin.get_for_row. fold displacementfield.
  run1. run1. run1.
  destruct (try! extension := getattr self "extension" in _)
    as [[mapping_file meta_fname]|e]; [|done].
  run1. run1. run1. run1.
  2:{ split; [|split; [done|not_member]].
      exists [], []. split; [by left|]. split; [by left|]. by left. }
  run1.
  eapply runs_consequence with
    (Q := fun pre res s1 => prealign_events afq_object r s pre).
  { destruct (truthy a); [|run1; by left]. run1.
    eapply runs_consequence; [apply prealign_runs|]. simpl.
    intros pre res s1 Hstep1 [Hpre _] _. destruct res; [|done].
    repeat run1; simpl; rewrite ?app_nil_r; done. }
  simpl. intros pre res s1 Hstep1 Hpre _.
  destruct (prealign_events_no_mapping _ _ Hpre) as [_ Hpre_no].
  destruct res as [reg_prealign|e].
  2:{ split; [|split; [done|]].
      - exists pre, []. split; [done|]. split; [by left|].
        left. simpl. by rewrite ?app_nil_r.
      - simpl. rewrite ?app_nil_r. intros Hin. by apply Hpre_no in Hin. }
  run1. run1. run1. run1.
  eapply runs_consequence with
    (Q := fun mid res s2 =>
       (mid = []
        ∨ (fs s1 !! mapping_file = None
           ∧ ∃ inner, prealign_events afq_object r s1 inner
             ∧ (mid = Call_gen_mapping :: inner
                ∨ mid = Call_gen_mapping :: inner
                        ++ [Write_mapping mapping_file;
                            Write_json meta_fname displacementfield])))
       ∧ (Write_mapping mapping_file ∈ mid →
          fs s2 !! meta_fname = Some (JsonFile displacementfield))).
  { destruct (negb _) eqn:Hpresent; [|run1; split; [by left|not_member]].
    apply exists_false in Hpresent.
    repeat run1; try (split; [by left|not_member]).
    eapply runs_consequence; [apply gen_mapping_runs|]. simpl.
    intros inner res s3 Hstep3 Hinner _.
    assert (prealign_events afq_object r s1 inner) as Hinner1.
    { eapply prealign_events_earlier; [|done]. eapply step_trans; eauto. }
    destruct (prealign_events_no_mapping _ _ Hinner1) as [_ Hinner_no].
    assert (Write_mapping mapping_file ∉ Call_gen_mapping :: inner) as Hno.
    { intros Hin. apply elem_of_cons in Hin as [Hin|Hin]; [done|].
      by apply Hinner_no in Hin. }
    destruct res as [mapping|e].
    2:{ simpl. rewrite ?app_nil_r. split; [|by intros Hin; destruct Hno].
        right. split; [done|]. exists inner. auto. }
    repeat run1; simpl; rewrite ?app_nil_r.
    - split; [|done]. right. split; [done|]. exists inner. auto.
    - split; [|by intros Hin; destruct Hno].
      right. split; [done|]. exists inner. auto. }
  simpl. intros mid res s2 Hstep2 [Hmid Hjson] _.
  assert (get_for_row_events afq_object r mapping_file meta_fname s (pre ++ mid))
    as Hshape.
  { destruct Hmid as [->|(Habsent & inner & Hinner & Hmid)].
    - exists pre, []. split; [done|]. split; [by left|]. left. by rewrite app_nil_r.
    - exists pre, inner. split; [done|].
      split; [by eapply prealign_events_earlier|].
      right. split; [by eapply step_absent|]. destruct Hmid as [->| ->]; auto. }
  assert (Write_mapping mapping_file ∈ pre ++ mid →
          fs s2 !! meta_fname = Some (JsonFile displacementfield)) as Hside.
  { intros Hin. apply elem_of_app in Hin as [Hin|Hin]; [|by apply Hjson].
    by apply Hpre_no in Hin. }
  destruct res as [[]|e]; [|done].
  repeat run1; simpl; rewrite ?app_nil_r; (split; [done|]); (split; [|done]);
    try done.
  all: intros m Hm.
  all: match goal with
       | Hr : ∀ m, _ = Ok m → _ |- _ =>
           destruct (Hr m Hm) as (content & built & ? & ? & ?)
       end; eauto 6.
Qed.
End cache.

Section cache_properties.
Context `{Numpy, !Fslpy, !Dipy, !AFQ_data, !AFQ_calls}.
Context (self : instance) (afq_object : AFQ) (r : row).

Lemma get_for_row_events_facts mapping_file meta_fname s evs :
  get_for_row_events afq_object r mapping_file meta_fname s evs →
  (Call_gen_mapping ∈ evs → fs s !! mapping_file = None)
  ∧ (∀ p, Write_mapping p ∈ evs →
       p = mapping_file ∧ fs s !! mapping_file = None
       ∧ Call_gen_mapping ∈ evs
       ∧ Write_json meta_fname displacementfield ∈ evs)
  ∧ (Call_affine_registration ∈ evs → fs s !! prealign_file afq_object r = None)
  ∧ (∀ p, Np_save p ∈ evs →
       p = prealign_file afq_object r
       ∧ fs s !! prealign_file afq_object r = None
       ∧ Call_affine_registration ∈ evs
       ∧ Write_json (prealign_meta afq_object r) rigid ∈ evs)
  ∧ (∀ p meta, Write_json p meta ∈ evs →
       (p = prealign_meta afq_object r ∧ meta = rigid
        ∧ Np_save (prealign_file afq_object r) ∈ evs)
       ∨ (p = meta_fname ∧ meta = displacementfield
          ∧ Write_mapping mapping_file ∈ evs)).
Proof.
  intros (pre & inner & Hpre & Hinner & Hevs).
  destruct Hpre as [->|[Hpf [->| ->]]], Hinner as [->|[Hpf' [->| ->]]],
    Hevs as [->|[Hmf [->| ->]]]; simpl.
  all: repeat split; intros; set_unfold; intuition (simplify_eq; tauto).
Qed.

Lemma prealign_events_paths s evs p :
  prealign_events afq_object r s evs → p ∈ paths_written evs →
  p = prealign_file afq_object r ∨ p = prealign_meta afq_object r.
Proof.
  intros [->|[_ [->| ->]]]; unfold paths_written; simpl; set_unfold; tauto.
Qed.

Lemma prealign_cached s :
  is_Some (fs s !! prealign_file afq_object r) →
  GeneratedMapMixin.prealign self afq_object r s
  = (Ok (prealign_file afq_object r), s).
Proof.
  intros Hpresent. unfold GeneratedMapMixin.prealign, bind, op_exists, gets, ret.
  fold (prealign_file afq_object r). by rewrite bool_decide_eq_true_2.
Qed.

(** What one run of [get_for_row] does, once the two file names are known. *)
Lemma get_for_row_run s extension mapping_file meta_fname :
  getattr self "extension" = Ok extension →
  GeneratedMapMixin.get_fnames extension afq_object r = Ok (mapping_file, meta_fname) →
  let run := get_for_row self afq_object r s in
  let evs := new_events s run.2 in
  step s evs run.2
  ∧ get_for_row_events afq_object r mapping_file meta_fname s evs
  ∧ (∀ m, run.1 = Ok m →
       ∃ content inv built,
         fs run.2 !! mapping_file = Some content
         ∧ build_mapping (DispFile mapping_file content) (dwi_file r)
             (reg_template_img afq_object) inv = Some built
         ∧ m = OpaqueMapping built)
  ∧ (Write_mapping mapping_file ∈ evs →
     fs run.2 !! meta_fname = Some (JsonFile displacementfield)).
Proof.
  intros Hext Hnames. simpl.
  destruct (runs_run _ _ _ (get_for_row_runs self afq_object r s)) as [Hstep Hpost].
  rewrite Hext in Hpost. simpl in Hpost. rewrite Hnames in Hpost. by split.
Qed.
End cache_properties.

Section cache_claims.
Context `{Numpy, !Fslpy, !Dipy, !AFQ_data, !AFQ_calls}.

(** C7: every registration artifact a generated-map class writes comes
    with its JSON sidecar.  In a run of [get_for_row], a save of the
    prealign matrix goes to the prealign file and the sidecar
    [{"type": "rigid"}] is written to the prealign metadata path; a write
    of the mapping goes to the mapping file, the sidecar
    [{"type": "displacementfield"}] is written to the mapping metadata
    path and is there when the run ends; no other JSON file is written.
    A run of [prealign] alone that saves the matrix also leaves the rigid
    sidecar on disk. *)
Theorem C7_artifact_writes_come_with_sidecar
    (self : instance) (afq_object : AFQ) (r : row) (s : state)
    (extension : attr) (mapping_file meta_fname : string) :
  getattr self "extension" = Ok extension →
  GeneratedMapMixin.get_fnames extension afq_object r = Ok (mapping_file, meta_fname) →
  let run := get_for_row self afq_object r s in
  let evs := new_events s run.2 in
  let alone := GeneratedMapMixin.prealign self afq_object r s in
  let prealign_file := prealign_file afq_object r in
  let prealign_meta := prealign_meta afq_object r in
  let rigid : gmap string string := {[ "type" := "rigid" ]} in
  let displacementfield : gmap string string := {[ "type" := "displacementfield" ]} in
  (∀ p, Np_save p ∈ evs →
     p = prealign_file ∧ Write_json prealign_meta rigid ∈ evs)
  ∧ (∀ p, Write_mapping p ∈ evs →
       p = mapping_file
       ∧ Write_json meta_fname displacementfield ∈ evs
       ∧ fs run.2 !! meta_fname = Some (JsonFile displacementfield))
  ∧ (∀ p meta, Write_json p meta ∈ evs →
       (p = prealign_meta ∧ meta = rigid ∧ Np_save prealign_file ∈ evs)
       ∨ (p = meta_fname ∧ meta = displacementfield
          ∧ Write_mapping mapping_file ∈ evs))
  ∧ (∀ p, Np_save p ∈ new_events s alone.2 →
       p = prealign_file
       ∧ Write_json prealign_meta rigid ∈ new_events s alone.2
       ∧ fs alone.2 !! prealign_meta = Some (JsonFile rigid)).
Proof.
  intros Hext Hnames run evs alone pf pm.
  change ({[ "type" := "rigid" ]} : gmap string string) with rigid.
  change ({[ "type" := "displacementfield" ]} : gmap string string)
    with displacementfield.
  simpl.
  destruct (get_for_row_run self afq_object r s _ _ _ Hext Hnames)
    as (Hstep & Hshape & _ & Hside).
  fold run evs in Hstep, Hshape, Hside.
  destruct (get_for_row_events_facts afq_object r _ _ _ _ Hshape)
    as (_ & Hwrite & _ & Hsave & Hjson).
  split_and!.
  - intros p Hin. apply Hsave in Hin. tauto.
  - intros p Hin. destruct (Hwrite p Hin) as (-> & _ & _ & Hmeta).
    split_and!; [done..|]. by apply Hside.
  - done.
  - destruct (runs_run _ _ _ (prealign_runs self afq_object r s))
      as (Hstep' & Hevs & _ & Hrigid).
    fold alone in Hstep', Hevs, Hrigid.
    intros p Hin.
    assert (p = pf ∧ Write_json pm rigid ∈ new_events s alone.2) as [-> Hmeta].
    { destruct Hevs as [Hevs|[_ [Hevs|Hevs]]]; rewrite Hevs in Hin |- *;
        set_unfold; intuition (simplify_eq; tauto). }
    split_and!; [done..|]. by apply Hrigid.
Qed.
End cache_claims.

(** ** Pure steps: inversion and the numpy operations *)

Lemma rbind_Ok {A B} (r : result A) (k : A → result B) (b : B) :
  rbind r k = Ok b → ∃ a, r = Ok a ∧ k a = Ok b.
Proof. destruct r as [a|e]; [eauto|done]. Qed.

(** Walks back through the steps of a pure computation that returned. *)
Ltac rbind_inv H :=
  repeat first
    [ apply rbind_Ok in H as (? & ? & H)
    | progress simpl in H
    | match type of H with
      | (if ?b then _ else _) = Ok _ => destruct b; [discriminate H|]
      | match ?p with _ => _ end = Ok _ => destruct p
      end ].


Lemma numel_app (xs ys : list Z) : numel (xs ++ ys) = (numel xs * numel ys)%Z.
Proof.
  unfold numel. induction xs as [|x xs IH]; simpl; [lia|]. rewrite IH. lia.
Qed.

Lemma assign_component0_zeros {A} (z : A) (src : list A) :
  assign_component0 (replicate (2 * length src) z) src = src ≫= (λ x, [x; z]).
Proof.
  induction src as [|x src IH]; [done|].
  replace (2 * length (x :: src)) with (S (S (2 * length src))) by (simpl; lia).
  rewrite bind_cons. cbn [replicate assign_component0 app]. by rewrite IH.
Qed.







Lemma any_ne_same (xs : list Z) : any_ne xs xs = false.
Proof. induction xs as [|x xs IH]; [done|]. simpl. by rewrite Z.eqb_refl, IH. Qed.

Lemma reshape_fits {A} (a : ndarray A) (newshape : list Z) :
  Forall (Z.le 0) newshape → numel newshape = Z.of_nat (length (data a)) →
  reshape a newshape = Ok (mk_ndarray newshape (data a)).
Proof. intros Hpos Hsize. unfold reshape. by rewrite bool_decide_eq_true_2. Qed.

Lemma reshape_misfit {A} (a : ndarray A) (newshape : list Z) :
  numel newshape ≠ Z.of_nat (length (data a)) →
  reshape a newshape = Raise (ValueError (CannotReshape (length (data a)) newshape)).
Proof.
  intros Hsize. unfold reshape. rewrite bool_decide_eq_false_2; [done|]. by intros [_ ?].
Qed.

Lemma zeros_fits {A} (z : A) (shp : list Z) :
  Forall (Z.le 0) shp →
  zeros z shp = Ok (mk_ndarray shp (replicate (Z.to_nat (numel shp)) z)).
Proof. intros Hpos. unfold zeros. by rewrite bool_decide_eq_true_2. Qed.

(** ** What the five [get_for_row] return *)

Section returned_mappings.
Context `{Numpy, !Fslpy, !H5py, !Dipy, !AFQ_data, !AFQ_calls}.

(** C1: a mapping returned by [get_for_row] of [FnirtMap], of [ItkMap], or
    of an instance of one of the three generated-map classes has both a
    [transform] and a [transform_inverse] method. *)
Theorem C1_returned_mappings_expose_interface :
  (∀ (self : FnirtMap.t) afq_object r m,
     FnirtMap.get_for_row self afq_object r = Ok m → exposes_interface m)
  ∧ (∀ (self : ItkMap.t) afq_object r m,
     ItkMap.get_for_row self afq_object r = Ok m → exposes_interface m)
  ∧ (∀ (self : instance) afq_object r s m,
     (get_for_row self afq_object r s).1 = Ok m → exposes_interface m).
Proof.
  split_and!.
  - intros self afq_object r m Hm. unfold FnirtMap.get_for_row in Hm.
    rbind_inv Hm. by injection Hm as <-.
  - intros self afq_object r m Hm.
    unfold ItkMap.get_for_row, reg.read_mapping in Hm.
    rbind_inv Hm. by injection Hm as <-.
  - intros self afq_object r s m Hm.
    destruct (runs_run _ _ _ (get_for_row_runs self afq_object r s)) as [_ Hpost].
    destruct (try! extension := getattr self "extension" in _)
      as [[mapping_file meta_fname]|e].
    + destruct Hpost as (_ & Hres & _).
      destruct (Hres m Hm) as (content & inv & built & _ & _ & ->). done.
    + destruct Hpost as [_ Hraise]. congruence.
Qed.

End returned_mappings.

(** ** The generated maps, class by class *)

Section generated_classes.
Context `{Numpy, !Fslpy, !Dipy, !AFQ_data, !AFQ_calls}.

(** C9: [find_path] of [SynMap], [SlrMap] and [AffMap] returns [None] and
    leaves the object and the store as they were, whatever its
    arguments. *)
Theorem C9_generated_find_path_is_noop
    (self : instance) (bids_layout : BIDSLayout)
    (from_path subject session : string) (s : state) :
  find_path self bids_layout from_path subject session (self, s)
  = (Ok tt, (self, s)).
Proof. unfold find_path. by destruct (type self). Qed.

Lemma SlrMap_attributes (syn_kwargs : option kwargs) :
  let self := SlrMap.__init__ syn_kwargs in
  getattr self "extension" = Ok (AStr ".npy")
  ∧ getattr self "use_prealign" = Ok (ABool false)
  ∧ getattr self "syn_kwargs" = Ok (ADict ∅)
  ∧ getattr self "slr_kwargs" = Raise (AttributeError "slr_kwargs")
  ∧ type self = C_SlrMap.
Proof. by split_and!. Qed.

(** C2: [get_for_row] of an [SlrMap] whose mapping file is not on disk
    reaches [gen_mapping] and raises [AttributeError]: [gen_mapping] reads
    [self.slr_kwargs], while [__init__] assigned [self.syn_kwargs]. *)
Theorem C2_SlrMap_get_for_row_raises
    (syn_kwargs : option kwargs) (afq_object : AFQ) (r : row) (s : state)
    (template_img subject_img : Nifti1Image) (template_sls subject_sls : Streamlines) :
  let self := SlrMap.__init__ syn_kwargs in
  let mapping_file :=
    _get_fname afq_object r "_mapping_from-DWI_to_MNI_xfm" +:+ ".npy" in
  fs s !! mapping_file = None →
  _reg_img afq_object (reg_template afq_object) false r
    = Some (template_img, template_sls) →
  _reg_img afq_object (reg_subject afq_object) true r
    = Some (subject_img, subject_sls) →
  (get_for_row self afq_object r s).1 = Raise (AttributeError "slr_kwargs").
Proof.
  intros self mapping_file Habsent Htemplate Hsubject.
  destruct (SlrMap_attributes syn_kwargs) as (Hext & Hpre & _ & Hslr & Htype).
  fold self in Hext, Hpre, Hslr, Htype.
  unfold get_for_row, GeneratedMapMixin.get_for_row, gen_mapping.
  rewrite Htype. unfold SlrMap.gen_mapping, bind, lift. 
  rewrite Hext, Hpre, Hslr. simpl. fold mapping_file.
  unfold op_exists, gets. simpl. rewrite Habsent. simpl.
  rewrite Htemplate, Hsubject. simpl. done.
Qed.
End generated_classes.

(** ** Runs in the concrete world *)

Module Runs.
Import Toy.
#[local] Existing Instances numpy fslpy h5py dipy afq_data afq_calls.

(** The failing run of C2, in the concrete world. *)
Lemma C2_witness :
  (get_for_row (SlrMap.__init__ None) afq_object sub01 fresh).1
  = Raise (AttributeError "slr_kwargs").
Proof.
  by apply (C2_SlrMap_get_for_row_raises None afq_object sub01 fresh
              template template no_streamlines no_streamlines).
Defined.





(** Both sidecars of the first run. *)
Lemma C7_witness :
  let rigid : gmap string string := {[ "type" := "rigid" ]} in
  let displacementfield : gmap string string := {[ "type" := "displacementfield" ]} in
  Write_json "sub-01_prealign_from-DWI_to-MNI_xfm.json" rigid
    ∈ new_events fresh after_first_run
  ∧ Write_json "sub-01_mapping_reg.json" displacementfield
    ∈ new_events fresh after_first_run
  ∧ fs after_first_run !! "sub-01_mapping_reg.json" = Some (JsonFile displacementfield).
Proof.
  pose proof (C7_artifact_writes_come_with_sidecar syn_map afq_object sub01 fresh
    (AStr ".nii.gz") "sub-01_mapping_from-DWI_to_MNI_xfm.nii.gz"
    "sub-01_mapping_reg.json" eq_refl eq_refl) as (Hsave & Hwrite & _ & _).
  split.
  - apply (Hsave "sub-01_prealign_from-DWI_to-MNI_xfm.npy").
    vm_compute. apply list_elem_of_further, list_elem_of_here.
  - apply (Hwrite "sub-01_mapping_from-DWI_to_MNI_xfm.nii.gz").
    vm_compute. do 4 apply list_elem_of_further. apply list_elem_of_here.
Defined.

(** The other four classes on the same row: each returns a mapping. *)
Example FnirtMap_returns :
  let found := (FnirtMap.find_path tt "derivatives" "sub-01" "01"
                  (FnirtMap.mk "warp" "MNI" ∅ ∅ ∅)).2 in
  is_ok (FnirtMap.get_for_row found afq_object sub01) = true.
Proof. reflexivity. Qed.

Example ItkMap_returns :
  let found := (ItkMap.find_path tt "derivatives" "sub-01" "01"
                  (ItkMap.mk "xfm" ∅ ∅)).2 in
  is_ok (ItkMap.get_for_row found afq_object sub01) = true.
Proof. reflexivity. Qed.

Example SynMap_returns :
  is_ok (get_for_row syn_map afq_object sub01 fresh).1 = true.
Proof. reflexivity. Qed.

Example AffMap_returns :
  is_ok (get_for_row (AffMap.__init__ None) afq_object sub01 fresh).1 = true.
Proof. reflexivity. Qed.

(** An [SlrMap] returns only when its mapping file is already there. *)
Example SlrMap_returns_from_cache :
  let cached :=
    set_fs (<["sub-01_mapping_from-DWI_to_MNI_xfm.npy" := NpyFile eye4]> ∅) fresh in
  is_ok (get_for_row (SlrMap.__init__ None) afq_object sub01 cached).1 = true.
Proof. reflexivity. Qed.
End Runs.

(** * Further properties of the code *)

(** ** More on the [fnames] table *)

(** [fnames[a] = g(fnames.get(a, {}))]: what the guard and the store of
    [find_path] do to the table. *)
Definition upd {V} (g : gmap string V → gmap string V) (a : string)
    (fnames : gmap string (gmap string V)) : gmap string (gmap string V) :=
  <[a := g (default ∅ (fnames !! a))]> fnames.

Section table_algebra.
Context {V : Type}.
Implicit Types (fnames : gmap string (gmap string V)).

Lemma ensure_session_upd fnames session :
  ensure_session session fnames = upd id session fnames.
Proof.
  unfold ensure_session, upd. case_bool_decide as Hs.
  - destruct Hs as [inner Hinner]. rewrite Hinner. simpl. by rewrite insert_id.
  - apply eq_None_not_Some in Hs. by rewrite Hs.
Qed.

Lemma store_fname_upd fnames session subject (v : V) :
  store_fname session subject v (ensure_session session fnames)
  = Ok (upd (insert subject v) session fnames).
Proof.
  rewrite ensure_session_upd. unfold store_fname, getitem, upd.
  rewrite lookup_insert_eq. simpl. by rewrite insert_insert_eq.
Qed.

Lemma upd_commute (g h : gmap string V → gmap string V) a b fnames :
  a ≠ b ∨ (∀ x, g (h x) = h (g x)) →
  upd g a (upd h b fnames) = upd h b (upd g a fnames).
Proof.
  intros Hab. unfold upd. destruct (decide (a = b)) as [->|Hne].
  - destruct Hab as [?|Hgh]; [done|].
    rewrite !lookup_insert_eq, !insert_insert_eq. simpl. by rewrite Hgh.
  - rewrite !lookup_insert_ne by done. by apply insert_insert_ne.
Qed.

Lemma upd_twice (g : gmap string V → gmap string V) a fnames :
  (∀ x, g (g x) = g x) → upd g a (upd g a fnames) = upd g a fnames.
Proof.
  intros Hg. unfold upd. rewrite lookup_insert_eq, insert_insert_eq. simpl.
  by rewrite Hg.
Qed.

Lemma lookup2_upd_insert fnames session subject (v : V) :
  lookup2 (upd (insert subject v) session fnames) session subject = Some v.
Proof. unfold lookup2, upd. rewrite lookup_insert_eq. simpl. apply lookup_insert_eq. Qed.
End table_algebra.

Section found_maps_more.
Context `{Numpy, !Fslpy, !H5py, !Dipy, !AFQ_data, !AFQ_calls}.

(** One call of [FnirtMap.find_path], in closed form. *)
Lemma FnirtMap_find_path_eq (self : FnirtMap.t) bids_layout from_path subject session :
  FnirtMap.find_path bids_layout from_path subject session self
  = match find_file bids_layout from_path (FnirtMap.warp_filters self)
            (FnirtMap.warp_suffix self) session subject None,
          find_file bids_layout from_path (FnirtMap.space_filters self)
            (FnirtMap.space_suffix self) session subject None with
    | Some w, Some sp =>
        (Ok tt, FnirtMap.set_fnames
                  (upd (insert subject (w, sp)) session (FnirtMap.fnames self)) self)
    | _, _ =>
        (Raise (Raised "find_file"),
         FnirtMap.set_fnames (upd id session (FnirtMap.fnames self)) self)
    end.
Proof.
  unfold FnirtMap.find_path, bind, modify, gets, lift, call. simpl.
  rewrite <- ensure_session_upd.
  destruct (find_file _ _ (FnirtMap.warp_filters self) _ _ _ _) as [w|]; simpl; [|done].
  destruct (find_file _ _ (FnirtMap.space_filters self) _ _ _ _) as [sp|]; simpl; [|done].
  by rewrite store_fname_upd.
Qed.

Lemma ItkMap_find_path_eq (self : ItkMap.t) bids_layout from_path subject session :
  ItkMap.find_path bids_layout from_path subject session self
  = match find_file bids_layout from_path (ItkMap.warp_filters self)
            (ItkMap.warp_suffix self) session subject (Some "h5") with
    | Some w =>
        (Ok tt, ItkMap.set_fnames
                  (upd (insert subject w) session (ItkMap.fnames self)) self)
    | None =>
        (Raise (Raised "find_file"),
         ItkMap.set_fnames (upd id session (ItkMap.fnames self)) self)
    end.
Proof.
  unfold ItkMap.find_path, bind, modify, gets, lift, call. simpl.
  rewrite <- ensure_session_upd.
  destruct (find_file _ _ (ItkMap.warp_filters self) _ _ _ _) as [w|]; simpl; [|done].
  by rewrite store_fname_upd.
Qed.

Lemma insert_insert_commute_or {V} (u u' : string) (v v' : V) :
  u ≠ u' → ∀ x : gmap string V, <[u := v]> (<[u' := v']> x) = <[u' := v']> (<[u := v]> x).
Proof. intros Hne x. by apply insert_insert_ne. Qed.

(** X1: the table after two calls of [find_path] for different (session,
    subject) pairs does not depend on their order, whether the searches
    return or raise. *)
Theorem X1_find_path_calls_commute
    bids_layout from_path subject session bids_layout' from_path' subject' session' :
  (session, subject) ≠ (session', subject') →
  (∀ self : FnirtMap.t,
     (FnirtMap.find_path bids_layout' from_path' subject' session'
        (FnirtMap.find_path bids_layout from_path subject session self).2).2
     = (FnirtMap.find_path bids_layout from_path subject session
          (FnirtMap.find_path bids_layout' from_path' subject' session' self).2).2)
  ∧ (∀ self : ItkMap.t,
     (ItkMap.find_path bids_layout' from_path' subject' session'
        (ItkMap.find_path bids_layout from_path subject session self).2).2
     = (ItkMap.find_path bids_layout from_path subject session
          (ItkMap.find_path bids_layout' from_path' subject' session' self).2).2).
Proof.
  intros Hpair.
  assert (session' ≠ session ∨ subject' ≠ subject) as Hne.
  { destruct (decide (session' = session)) as [->|?]; [|by left].
    right. intros ->. done. }
  split; intros self.
  - rewrite !FnirtMap_find_path_eq.
    repeat case_match; simpl in *; simplify_eq; unfold FnirtMap.set_fnames; simpl;
      f_equal; apply upd_commute;
      solve [ by right | destruct Hne as [?|?]; [by left|right];
                         by apply insert_insert_commute_or ].
  - rewrite !ItkMap_find_path_eq.
    repeat case_match; simpl in *; simplify_eq; unfold ItkMap.set_fnames; simpl;
      f_equal; apply upd_commute;
      solve [ by right | destruct Hne as [?|?]; [by left|right];
                         by apply insert_insert_commute_or ].
Qed.

(** X2: a second call of [find_path] with the same arguments returns what the
    first one returned and leaves the object as the first one left it. *)
Theorem X2_find_path_twice bids_layout from_path subject session :
  (∀ self : FnirtMap.t,
     let once := FnirtMap.find_path bids_layout from_path subject session self in
     FnirtMap.find_path bids_layout from_path subject session once.2 = once)
  ∧ (∀ self : ItkMap.t,
     let once := ItkMap.find_path bids_layout from_path subject session self in
     ItkMap.find_path bids_layout from_path subject session once.2 = once).
Proof.
  split; intros self; simpl.
  - rewrite !FnirtMap_find_path_eq.
    repeat case_match; simpl in *; simplify_eq; unfold FnirtMap.set_fnames; simpl;
      do 2 f_equal; apply upd_twice; intros x; by rewrite ?insert_insert_eq.
  - rewrite !ItkMap_find_path_eq.
    repeat case_match; simpl in *; simplify_eq; unfold ItkMap.set_fnames; simpl;
      do 2 f_equal; apply upd_twice; intros x; by rewrite ?insert_insert_eq.
Qed.

(** X3: [find_path] creates the dict of the session before it searches: the
    session is in the table after every call, and a call whose search
    raises leaves an empty dict for a session that was not there (and the
    dict it had otherwise), while the suffixes and filters never change. *)
Theorem X3_find_path_creates_session bids_layout from_path subject session :
  (∀ self : FnirtMap.t,
     let run := FnirtMap.find_path bids_layout from_path subject session self in
     is_Some (FnirtMap.fnames run.2 !! session)
     ∧ (run.1 ≠ Ok tt →
        FnirtMap.fnames run.2 !! session
        = Some (default ∅ (FnirtMap.fnames self !! session)))
     ∧ FnirtMap.warp_suffix run.2 = FnirtMap.warp_suffix self
     ∧ FnirtMap.space_suffix run.2 = FnirtMap.space_suffix self
     ∧ FnirtMap.warp_filters run.2 = FnirtMap.warp_filters self
     ∧ FnirtMap.space_filters run.2 = FnirtMap.space_filters self)
  ∧ (∀ self : ItkMap.t,
     let run := ItkMap.find_path bids_layout from_path subject session self in
     is_Some (ItkMap.fnames run.2 !! session)
     ∧ (run.1 ≠ Ok tt →
        ItkMap.fnames run.2 !! session
        = Some (default ∅ (ItkMap.fnames self !! session)))
     ∧ ItkMap.warp_suffix run.2 = ItkMap.warp_suffix self
     ∧ ItkMap.warp_filters run.2 = ItkMap.warp_filters self).
Proof.
  split; intros self; simpl.
  - rewrite FnirtMap_find_path_eq.
    repeat case_match; simpl; unfold upd; rewrite lookup_insert_eq;
      split_and!; eauto; done.
  - rewrite ItkMap_find_path_eq.
    repeat case_match; simpl; unfold upd; rewrite lookup_insert_eq;
      split_and!; eauto; done.
Qed.

Lemma getitem2_found {V B} (fnames : gmap string (gmap string V))
    session subject (v : V) (k : V → result B) :
  lookup2 fnames session subject = Some v →
  (try! by_subject := getitem fnames session in
   try! found := getitem by_subject subject in k found) = k v.
Proof.
  unfold lookup2, getitem. destruct (fnames !! session) as [inner|]; [|done].
  simpl. by intros ->.
Qed.

(** X4: after a [FnirtMap.find_path] whose two searches returned, [get_for_row]
    for a row of that session and subject reads the subject image from the
    row's DWI file, the warp's source space from the space file found and
    the warp from the warp file found, and wraps the warp with the affine
    of the registration template; it raises only what fslpy raises. *)
Theorem X4_FnirtMap_find_then_get
    (self : FnirtMap.t) bids_layout from_path (afq_object : AFQ) (r : row)
    (nearest_warp nearest_space : string) :
  find_file bids_layout from_path (FnirtMap.warp_filters self)
    (FnirtMap.warp_suffix self) (ses r) (subject r) None = Some nearest_warp →
  find_file bids_layout from_path (FnirtMap.space_filters self)
    (FnirtMap.space_suffix self) (ses r) (subject r) None = Some nearest_space →
  let found := (FnirtMap.find_path bids_layout from_path (subject r) (ses r) self).2 in
  FnirtMap.get_for_row found afq_object r
  = match Image_open (dwi_file r), Image_open nearest_space with
    | Some subj, Some their_templ =>
        match readFnirt nearest_warp their_templ subj with
        | Some warp =>
            Ok (ConformedFnirtMapping warp (affine (reg_template_img afq_object)))
        | None => Raise (Raised "readFnirt")
        end
    | _, _ => Raise (Raised "Image")
    end.
Proof.
  intros Hwarp Hspace. simpl. rewrite FnirtMap_find_path_eq, Hwarp, Hspace. simpl.
  unfold FnirtMap.get_for_row. simpl.
  rewrite (getitem2_found _ _ _ (nearest_warp, nearest_space))
    by apply lookup2_upd_insert.
  unfold call.
  destruct (Image_open (dwi_file r)) as [subj|]; simpl; [|done].
  destruct (Image_open nearest_space) as [their_templ|]; simpl; [|done].
  by destruct (readFnirt nearest_warp their_templ subj).
Qed.
End found_maps_more.

(** ** More on [ItkMap.get_for_row] *)

Section itk_more.
Context `{Numpy, !Fslpy, !H5py, !Dipy, !AFQ_data, !AFQ_calls}.

(** The start of [ItkMap.get_for_row], up to the shape check, for an
    object whose table holds the warp's path. *)
Lemma ItkMap_get_for_row_open (self : ItkMap.t) (afq_object : AFQ) (r : row)
    (nearest_warp : string) :
  lookup2 (ItkMap.fnames self) (ses r) (subject r) = Some nearest_warp →
  ItkMap.get_for_row self afq_object r
  = (try! warp_f5 := call "h5py.File" (h5py_File nearest_warp) in
     try! fixed := ItkMap.transform_dataset warp_f5 "1" "TransformFixedParameters" in
     let their_shape := take 3 (to_int <$> fixed) in
     let our_shape := shape (get_fdata (reg_template_img afq_object)) in
     try! differ := ne_any our_shape their_shape in
     if differ then Raise (ValueError (ItkShapeMismatch their_shape our_shape))
     else
       try! params := ItkMap.transform_dataset warp_f5 "1" "TransformParameters" in
       try! their_forward := reshape (asarray params) (their_shape ++ [3%Z]) in
       try! their_disp := zeros fzero (their_shape ++ [3%Z; 2%Z]) in
       let their_disp :=
         mk_ndarray (shape their_disp)
           (assign_component0 (data their_disp) (data their_forward)) in
       let their_disp :=
         mk_Nifti1Image their_disp (affine (reg_template_img afq_object)) in
       try! their_prealign := zeros fzero [4%Z; 4%Z] in
       try! params2 := ItkMap.transform_dataset warp_f5 "2" "TransformParameters" in
       try! block := reshape (asarray (take 9 params2)) [3%Z; 3%Z] in
       let their_prealign :=
         assign_at their_prealign (positions 4 [0; 1; 2] [0; 1; 2])%nat (data block) in
       try! params2 := ItkMap.transform_dataset warp_f5 "2" "TransformParameters" in
       try! column := broadcast_to 3 (drop 9 params2) in
       let their_prealign :=
         assign_at their_prealign (positions 4 [0; 1; 2] [3])%nat column in
       let their_prealign :=
         assign_at their_prealign (positions 4 [3] [3])%nat [fone] in
       reg.read_mapping their_disp (dwi_file r) (reg_template_img afq_object)
         (Some their_prealign)).
Proof. intros Hfound. unfold ItkMap.get_for_row. by rewrite (getitem2_found _ _ _ _ _ Hfound). Qed.

(** X5: [ItkMap.get_for_row] before the shape check: a warp file that cannot be
    opened propagates h5py's exception, and a file without the group
    [TransformGroup], without its subgroup [1], or without the dataset
    [TransformFixedParameters] in it raises [KeyError] with the first
    missing name. *)
Theorem X5_ItkMap_missing_warp_data
    (self : ItkMap.t) (afq_object : AFQ) (r : row) (nearest_warp : string) :
  lookup2 (ItkMap.fnames self) (ses r) (subject r) = Some nearest_warp →
  let run := ItkMap.get_for_row self afq_object r in
  (h5py_File nearest_warp = None → run = Raise (Raised "h5py.File"))
  ∧ (∀ warp_f5, h5py_File nearest_warp = Some warp_f5 →
       (warp_f5 !! "TransformGroup" = None → run = Raise (KeyError "TransformGroup"))
       ∧ (∀ groups, warp_f5 !! "TransformGroup" = Some groups →
            (groups !! "1" = None → run = Raise (KeyError "1"))
            ∧ (∀ g, groups !! "1" = Some g →
                 g !! "TransformFixedParameters" = None →
                 run = Raise (KeyError "TransformFixedParameters")))).
Proof.
  intros Hfound run. unfold run. rewrite (ItkMap_get_for_row_open _ _ _ _ Hfound).
  split; [by intros ->|]. intros warp_f5 ->. simpl.
  unfold ItkMap.transform_dataset, getitem.
  split; [by intros ->|]. intros groups ->. simpl.
  split; [by intros ->|]. intros g -> Hmissing. simpl. by rewrite Hmissing.
Qed.

(** X6: [ItkMap.get_for_row] after a passed shape check (non-negative template
    shape): a forward field that does not hold three values per voxel
    fails the reshape; with a good forward field, fewer than nine affine
    parameters fail the reshape of the rotation block, and nine or more
    fail the assignment of the translation column unless exactly one or
    three values follow the first nine; a single value is broadcast to all
    three rows of the column. *)
Theorem X6_ItkMap_parameter_counts
    (self : ItkMap.t) (afq_object : AFQ) (r : row)
    (nearest_warp : string) (warp_f5 : h5file) (fixed : list float64) :
  lookup2 (ItkMap.fnames self) (ses r) (subject r) = Some nearest_warp →
  h5py_File nearest_warp = Some warp_f5 →
  ItkMap.transform_dataset warp_f5 "1" "TransformFixedParameters" = Ok fixed →
  let template := reg_template_img afq_object in
  let our_shape := shape (get_fdata template) in
  take 3 (to_int <$> fixed) = our_shape →
  Forall (Z.le 0) our_shape →
  let run := ItkMap.get_for_row self afq_object r in
  ∀ params,
    ItkMap.transform_dataset warp_f5 "1" "TransformParameters" = Ok params →
    (Z.of_nat (length params) ≠ (numel our_shape * 3)%Z →
     run = Raise (ValueError (CannotReshape (length params) (our_shape ++ [3%Z]))))
    ∧ (Z.of_nat (length params) = (numel our_shape * 3)%Z →
       ∀ params2,
         ItkMap.transform_dataset warp_f5 "2" "TransformParameters" = Ok params2 →
         (length params2 < 9 →
          run = Raise (ValueError (CannotReshape (length params2) [3; 3]%Z)))
         ∧ (9 ≤ length params2 → length params2 ≠ 10 → length params2 ≠ 12 →
            run = Raise (ValueError (CannotBroadcast (length params2 - 9) 3)))
         ∧ (∀ r0 r1 r2 r3 r4 r5 r6 r7 r8 t,
              params2 = [r0; r1; r2; r3; r4; r5; r6; r7; r8; t] →
              run = reg.read_mapping
                      (mk_Nifti1Image
                         (mk_ndarray (our_shape ++ [3; 2]%Z)
                            (params ≫= (λ x, [x; fzero])))
                         (affine template))
                      (dwi_file r) template
                      (Some (mk_ndarray [4; 4]%Z
                               [r0; r1; r2; t;
                                r3; r4; r5; t;
                                r6; r7; r8; t;
                                fzero; fzero; fzero; fone])))).
Proof.
  intros Hfound Hopen Hfixed template our_shape Hshape Hpos run params Hparams.
  assert (Forall (Z.le 0) (our_shape ++ [3%Z])) as Hpos3.
  { apply Forall_app. split; [done|]. by repeat constructor. }
  assert (Forall (Z.le 0) (our_shape ++ [3%Z; 2%Z])) as Hpos6.
  { apply Forall_app. split; [done|]. by repeat constructor. }
  assert (numel (our_shape ++ [3%Z]) = (numel our_shape * 3)%Z) as Hnumel.
  { rewrite numel_app. unfold numel at 2. simpl. lia. }
  unfold run. rewrite (ItkMap_get_for_row_open _ _ _ _ Hfound), Hopen. simpl.
  rewrite Hfixed. simpl. rewrite Hshape. fold template our_shape.
  unfold ne_any. rewrite bool_decide_eq_true_2 by done. simpl.
  rewrite any_ne_same, Hparams. simpl.
  split.
  - intros Hcount. rewrite reshape_misfit; [done|]. simpl. lia.
  - intros Hcount. rewrite reshape_fits by (simpl; solve [done|lia]).
    rewrite zeros_fits by done. simpl.
    assert (Z.to_nat (numel (our_shape ++ [3%Z; 2%Z])) = 2 * length params) as ->.
    { rewrite numel_app. unfold numel at 2. simpl. lia. }
    rewrite assign_component0_zeros.
    intros params2 ->. simpl. split_and!.
    + intros Hshort. rewrite reshape_misfit.
      * simpl. by rewrite length_take, Nat.min_r by lia.
      * unfold asarray, numel. cbn [data foldr]. rewrite length_take. lia.
    + intros Hlong Hten Htwelve. rewrite reshape_fits.
      2:{ by repeat constructor. }
      2:{ unfold asarray, numel. cbn [data foldr]. rewrite length_take. lia. }
      simpl. unfold broadcast_to.
      rewrite bool_decide_eq_false_2 by (rewrite length_drop; lia).
      assert (length (drop 9 params2) = length params2 - 9) as Hdrop
        by apply length_drop.
      destruct (drop 9 params2) as [|x [|y rest]] eqn:Hrest; simpl in *.
      * by rewrite <- Hdrop.
      * lia.
      * by rewrite <- Hdrop.
    + intros r0 r1 r2 r3 r4 r5 r6 r7 r8 t ->. reflexivity.
Qed.
End itk_more.

(** ** More on [ConformedAffineMapping] *)

Section conformed_more.
Context `{Numpy, !Dipy}.

(** X7: what [ConformedAffineMapping.transform] hands to [AffineMap]: the
    keywords of the call without [interpolation], with [interp] set to the
    interpolation asked for (or ['linear']); an [interp] keyword given by
    the caller is overwritten. *)
Theorem X7_interp_keyword_is_overwritten
    (self : AffineMap) (args : list pyval) (keywords : kwargs) :
  let interpolation := default (VStr "linear") (keywords !! "interpolation") in
  ∃ passed : kwargs,
    ConformedAffineMapping.transform self args keywords
    = call "AffineMap.transform_inverse" (AffineMap_transform_inverse self args passed)
    ∧ ConformedAffineMapping.transform_inverse self args keywords
      = call "AffineMap.transform" (AffineMap_transform self args passed)
    ∧ passed !! "interp" = Some interpolation
    ∧ passed !! "interpolation" = None
    ∧ (∀ k, k ≠ "interp" → k ≠ "interpolation" → passed !! k = keywords !! k)
    ∧ (∀ x, ConformedAffineMapping.transform self args (<["interp" := x]> keywords)
            = ConformedAffineMapping.transform self args keywords).
Proof.
  simpl. eexists. split_and!; [reflexivity..| | | |].
  - apply lookup_insert_eq.
  - rewrite lookup_insert_ne by done. apply lookup_delete_eq.
  - intros k Hinterp Hinterpolation.
    rewrite lookup_insert_ne by done. by rewrite lookup_delete_ne.
  - intros x. unfold ConformedAffineMapping.transform,
      ConformedAffineMapping.bind_keywords.
    rewrite lookup_insert_ne by done. do 2 f_equal.
    apply map_eq. intros k. destruct (decide (k = "interp")) as [->|Hk].
    + by rewrite !lookup_insert_eq.
    + rewrite !lookup_insert_ne by done.
      destruct (decide (k = "interpolation")) as [->|Hk'].
      * by rewrite !lookup_delete_eq.
      * rewrite !lookup_delete_ne by done. by rewrite lookup_insert_ne.
Qed.
End conformed_more.

(** ** First and later runs of the generated maps *)

(** Runs store-passing code as far as the known outcomes allow. *)
Ltac exec :=
  repeat progress
    (unfold bind, op_exists, gets, lift, time, emit, modify, add_elapsed,
       np_load, np_save, reg.write_mapping, write_json, reg.read_mapping_from,
       ret, raise, getitem, set_fs, set_timing; simpl).

Section cold_runs.
Context `{Numpy, !Fslpy, !Dipy, !AFQ_data, !AFQ_calls}.

(** [prealign] when the file is not on disk and the calls return, in closed
    form. *)
Lemma prealign_cold (self : instance) (afq_object : AFQ) (r : row) (s : state)
    (reg_subject_img : Nifti1Image) (sls : Streamlines)
    (affine_kwargs : kwargs) (aff : ndarray float64) :
  let pf := prealign_file afq_object r in
  let pm := prealign_meta afq_object r in
  fs s !! pf = None →
  _reg_img afq_object (reg_subject afq_object) true r = Some (reg_subject_img, sls) →
  getattr self "affine_kwargs" = Ok (ADict affine_kwargs) →
  affine_registration reg_subject_img (reg_template_img afq_object) affine_kwargs
    = Some aff →
  GeneratedMapMixin.prealign self afq_object r s
  = let written :=
      mk_state (<[pm := JsonFile rigid]> (<[pf := NpyFile aff]> (fs s)))
        (timing s) (S (clock s))
        (trace s ++ [Call_affine_registration; Np_save pf; Write_json pm rigid]) in
    match timing s !! "Registration_pre_align" with
    | Some so_far =>
        (Ok pf,
         mk_state (fs written)
           (<["Registration_pre_align" :=
                fsub (fadd so_far (wall_clock (S (clock s)))) (wall_clock (clock s))]>
              (timing s))
           (S (S (clock s))) (trace written))
    | None => (Raise (KeyError "Registration_pre_align"), written)
    end.
Proof.
  intros pf pm Habsent Himg Hkw Haff.
  unfold GeneratedMapMixin.prealign, bind, op_exists, gets, lift, time.
  change (_get_fname afq_object r "_prealign_from-DWI_to-MNI_xfm.npy") with pf.
  change (_get_fname afq_object r "_prealign_from-DWI_to-MNI_xfm.json") with pm.
  rewrite Habsent, Himg, Hkw. simpl. rewrite Haff. simpl.
  unfold add_elapsed, bind, gets, lift, getitem, time. simpl.
  rewrite <- !app_assoc. simpl.
  by destruct (timing s !! "Registration_pre_align").
Qed.

(** X8: a [prealign] that has to register (the file is not on disk and the
    calls return): the matrix and its rigid sidecar are written first and
    the elapsed time is added to the [Registration_pre_align] timer
    afterwards.  If that timer is missing, [KeyError] is raised with both
    files already on disk; either way a second call returns the path
    without registering again. *)
Theorem X8_prealign_cold_run
    (self : instance) (afq_object : AFQ) (r : row) (s : state)
    (reg_subject_img : Nifti1Image) (sls : Streamlines)
    (affine_kwargs : kwargs) (aff : ndarray float64) :
  let prealign_file := prealign_file afq_object r in
  let prealign_meta := prealign_meta afq_object r in
  fs s !! prealign_file = None →
  _reg_img afq_object (reg_subject afq_object) true r = Some (reg_subject_img, sls) →
  getattr self "affine_kwargs" = Ok (ADict affine_kwargs) →
  affine_registration reg_subject_img (reg_template_img afq_object) affine_kwargs
    = Some aff →
  let run := GeneratedMapMixin.prealign self afq_object r s in
  let start_time := wall_clock (clock s) in
  let end_time := wall_clock (S (clock s)) in
  fs run.2 = <[prealign_meta := JsonFile rigid]>
               (<[prealign_file := NpyFile aff]> (fs s))
  ∧ trace run.2 = trace s ++ [Call_affine_registration; Np_save prealign_file;
                              Write_json prealign_meta rigid]
  ∧ match timing s !! "Registration_pre_align" with
    | Some so_far =>
        run.1 = Ok prealign_file
        ∧ timing run.2 = <["Registration_pre_align" :=
                             fsub (fadd so_far end_time) start_time]> (timing s)
        ∧ clock run.2 = S (S (clock s))
    | None =>
        run.1 = Raise (KeyError "Registration_pre_align")
        ∧ timing run.2 = timing s
        ∧ clock run.2 = S (clock s)
    end
  ∧ GeneratedMapMixin.prealign self afq_object r run.2 = (Ok prealign_file, run.2).
Proof.
  intros pf pm Habsent Himg Hkw Haff run start_time end_time.
  pose proof (prealign_cold self afq_object r s _ _ _ _ Habsent Himg Hkw Haff)
    as Hrun.
  fold run pf pm in Hrun. simpl in Hrun.
  assert (fs run.2 = <[pm := JsonFile rigid]> (<[pf := NpyFile aff]> (fs s))) as Hfs.
  { rewrite Hrun. simpl. by destruct (timing s !! "Registration_pre_align"). }
  split_and!.
  - done.
  - rewrite Hrun. simpl. by destruct (timing s !! "Registration_pre_align").
  - rewrite Hrun. simpl. by destruct (timing s !! "Registration_pre_align").
  - apply prealign_cached. fold pf. rewrite Hfs.
    destruct (decide (pm = pf)) as [->|Hne].
    + rewrite lookup_insert_eq. eauto.
    + rewrite lookup_insert_ne, lookup_insert_eq by done. eauto.
Qed.

Lemma SynMap_attributes (use_prealign : option bool) (affine_kwargs syn_kwargs : option kwargs) :
  let self := SynMap.__init__ use_prealign affine_kwargs syn_kwargs in
  getattr self "extension" = Ok (AStr ".nii.gz")
  ∧ getattr self "use_prealign" = Ok (ABool (default true use_prealign))
  ∧ getattr self "affine_kwargs" = Ok (ADict (default ∅ affine_kwargs))
  ∧ getattr self "syn_kwargs" = Ok (ADict (default ∅ syn_kwargs))
  ∧ type self = C_SynMap.
Proof. by split_and!. Qed.

Lemma AffMap_attributes (affine_kwargs : option kwargs) :
  let self := AffMap.__init__ affine_kwargs in
  getattr self "extension" = Ok (AStr ".npy")
  ∧ getattr self "use_prealign" = Ok (ABool false)
  ∧ getattr self "affine_kwargs" = Ok (ADict (default ∅ affine_kwargs))
  ∧ type self = C_AffMap.
Proof. by split_and!. Qed.

(** X9: the first run of a [SynMap] with linear pre-registration, when every
    call returns and both timers are there: the affine registration is
    saved with its sidecar, its matrix is the [prealign] of
    [syn_registration], the generated mapping is stored with the inverse
    matrix as [codomain_world2grid], and what is returned is read back from
    the mapping file with that inverse as [prealign].  Each timer grows by
    the time between its two clock readings, the pre-registration before
    the registration. *)
Theorem X9_SynMap_cold_run
    (affine_kwargs syn_kwargs : option kwargs) (afq_object : AFQ) (r : row) (s : state)
    (subject_img template_img : Nifti1Image) (subject_sls template_sls : Streamlines)
    (aff inverse : ndarray float64) (generated : DiffeomorphicMap)
    (so_far so_far' : float64) :
  let self := SynMap.__init__ (Some true) affine_kwargs syn_kwargs in
  let pf := prealign_file afq_object r in
  let pm := prealign_meta afq_object r in
  let mapping_file := _get_fname afq_object r "_mapping_from-DWI_to_MNI_xfm" +:+ ".nii.gz" in
  let meta_fname := _get_fname afq_object r "_mapping_reg" +:+ ".json" in
  let template := reg_template_img afq_object in
  pf ≠ pm → mapping_file ≠ pf → mapping_file ≠ pm → mapping_file ≠ meta_fname →
  fs s !! pf = None →
  fs s !! mapping_file = None →
  timing s !! "Registration_pre_align" = Some so_far →
  timing s !! "Registration" = Some so_far' →
  _reg_img afq_object (reg_subject afq_object) true r = Some (subject_img, subject_sls) →
  _reg_img afq_object (reg_template afq_object) false r = Some (template_img, template_sls) →
  affine_registration subject_img template (default ∅ affine_kwargs) = Some aff →
  syn_registration (get_fdata subject_img) (get_fdata template_img)
    (affine subject_img) (affine template_img) (Some aff) (default ∅ syn_kwargs)
    = Some generated →
  linalg_inv aff = Some inverse →
  let run := get_for_row self afq_object r s in
  let stored := DiffeomorphicMapping (set_codomain_world2grid generated inverse) in
  run.1 = (try! built := call "read_mapping"
                  (build_mapping (DispFile mapping_file (MappingFile stored))
                     (dwi_file r) template (Some inverse)) in
           Ok (OpaqueMapping built))
  ∧ fs run.2 = <[meta_fname := JsonFile displacementfield]>
                 (<[mapping_file := MappingFile stored]>
                    (<[pm := JsonFile rigid]> (<[pf := NpyFile aff]> (fs s))))
  ∧ trace run.2 = trace s ++ [Call_affine_registration; Np_save pf; Write_json pm rigid;
                              Call_gen_mapping; Write_mapping mapping_file;
                              Write_json meta_fname displacementfield]
  ∧ timing run.2
    = <["Registration" :=
          fsub (fadd so_far' (wall_clock (3 + clock s))) (wall_clock (2 + clock s))]>
        (<["Registration_pre_align" :=
             fsub (fadd so_far (wall_clock (1 + clock s))) (wall_clock (clock s))]>
           (timing s)).
Proof.
  intros self pf pm mapping_file meta_fname template Hpfpm Hmfpf Hmfpm Hmfmeta
    Hpf Hmf Htimer Htimer' Hsubject Htemplate Haff Hsyn Hinv run stored.
  destruct (SynMap_attributes (Some true) affine_kwargs syn_kwargs)
    as (Hext & Hup & Hak & Hsk & Htype).
  fold self in Hext, Hup, Hak, Hsk, Htype.
  pose proof (prealign_cold self afq_object r s _ _ _ _ Hpf Hsubject Hak Haff) as Hpre.
  fold pf pm in Hpre. simpl in Hpre. rewrite Htimer in Hpre.
  assert (run = (
    (try! built := call "read_mapping"
                  (build_mapping (DispFile mapping_file (MappingFile stored))
                     (dwi_file r) template (Some inverse)) in
           Ok (OpaqueMapping built)),
    mk_state
      (<[meta_fname := JsonFile displacementfield]>
                 (<[mapping_file := MappingFile stored]>
                    (<[pm := JsonFile rigid]> (<[pf := NpyFile aff]> (fs s)))))
      (<["Registration" := fsub (fadd so_far' (wall_clock (S (S (S (clock s))))))
                             (wall_clock (S (S (clock s))))]>
         (<["Registration_pre_align" :=
              fsub (fadd so_far (wall_clock (S (clock s)))) (wall_clock (clock s))]>
            (timing s)))
      (S (S (S (S (clock s)))))
      (trace s ++ [Call_affine_registration; Np_save pf; Write_json pm rigid;
                   Call_gen_mapping; Write_mapping mapping_file;
                   Write_json meta_fname displacementfield]))) as ->; [|done].
  unfold run, get_for_row, GeneratedMapMixin.get_for_row, gen_mapping.
  rewrite Htype. unfold SynMap.gen_mapping, bind at 1, lift at 1.
  rewrite Hext. simpl. fold mapping_file meta_fname.
  unfold bind at 1, lift at 1. rewrite Hup. simpl.
  unfold bind at 1. unfold bind at 1. rewrite Hpre.
  unfold bind at 1, np_load, bind at 1, gets at 1. simpl.
  rewrite lookup_insert_ne, lookup_insert_eq by congruence. simpl.
  exec. rewrite !lookup_insert_ne, Hmf by congruence.
  exec. rewrite Htemplate. exec. rewrite Hsubject. exec. rewrite Hsk.
  exec. rewrite Hsyn. exec. rewrite Hinv.
  exec. rewrite lookup_insert_ne, Htimer' by done.
  exec. rewrite lookup_insert_ne, lookup_insert_eq by congruence.
  exec. rewrite <- !app_assoc. simpl. fold template stored.
  by destruct (build_mapping _ _ _ _).
Qed.

(** X10: the first run of an [AffMap], when every call returns and both timers
    are there: although [use_prealign] is [False], [gen_mapping] runs the
    affine registration through [prealign] (saving the matrix and its rigid
    sidecar), wraps the matrix read back from disk in a
    [ConformedAffineMapping], and that object is stored as the mapping;
    what is returned is read back from the mapping file without
    [prealign].  The affine registration runs inside [gen_mapping], so its
    time is counted in both timers. *)
Theorem X10_AffMap_cold_run
    (affine_kwargs : option kwargs) (afq_object : AFQ) (r : row) (s : state)
    (subject_img template_img : Nifti1Image) (subject_sls template_sls : Streamlines)
    (aff : ndarray float64) (affine_map : AffineMap) (so_far so_far' : float64) :
  let self := AffMap.__init__ affine_kwargs in
  let pf := prealign_file afq_object r in
  let pm := prealign_meta afq_object r in
  let mapping_file := _get_fname afq_object r "_mapping_from-DWI_to_MNI_xfm" +:+ ".npy" in
  let meta_fname := _get_fname afq_object r "_mapping_reg" +:+ ".json" in
  let template := reg_template_img afq_object in
  pf ≠ pm → mapping_file ≠ meta_fname →
  fs s !! pf = None →
  fs s !! mapping_file = None →
  timing s !! "Registration_pre_align" = Some so_far →
  timing s !! "Registration" = Some so_far' →
  _reg_img afq_object (reg_subject afq_object) true r = Some (subject_img, subject_sls) →
  _reg_img afq_object (reg_template afq_object) false r = Some (template_img, template_sls) →
  affine_registration subject_img template (default ∅ affine_kwargs) = Some aff →
  AffineMap_init aff = Some affine_map →
  let run := get_for_row self afq_object r s in
  let stored := ConformedAffineMapping affine_map in
  run.1 = (try! built := call "read_mapping"
                  (build_mapping (DispFile mapping_file (MappingFile stored))
                     (dwi_file r) template None) in
           Ok (OpaqueMapping built))
  ∧ fs run.2 = <[meta_fname := JsonFile displacementfield]>
                 (<[mapping_file := MappingFile stored]>
                    (<[pm := JsonFile rigid]> (<[pf := NpyFile aff]> (fs s))))
  ∧ trace run.2 = trace s ++ [Call_gen_mapping; Call_affine_registration; Np_save pf;
                              Write_json pm rigid; Write_mapping mapping_file;
                              Write_json meta_fname displacementfield]
  ∧ timing run.2
    = <["Registration" :=
          fsub (fadd so_far' (wall_clock (3 + clock s))) (wall_clock (clock s))]>
        (<["Registration_pre_align" :=
             fsub (fadd so_far (wall_clock (2 + clock s))) (wall_clock (1 + clock s))]>
           (timing s)).
Proof.
  intros self pf pm mapping_file meta_fname template Hpfpm Hmfmeta
    Hpf Hmf Htimer Htimer' Hsubject Htemplate Haff Hinit run stored.
  destruct (AffMap_attributes affine_kwargs) as (Hext & Hup & Hak & Htype).
  fold self in Hext, Hup, Hak, Htype.
  assert (run = (
    (try! built := call "read_mapping"
                  (build_mapping (DispFile mapping_file (MappingFile stored))
                     (dwi_file r) template None) in
           Ok (OpaqueMapping built)),
    mk_state
      (<[meta_fname := JsonFile displacementfield]>
                 (<[mapping_file := MappingFile stored]>
                    (<[pm := JsonFile rigid]> (<[pf := NpyFile aff]> (fs s)))))
      (<["Registration" := fsub (fadd so_far' (wall_clock (S (S (S (clock s))))))
                             (wall_clock (clock s))]>
         (<["Registration_pre_align" :=
              fsub (fadd so_far (wall_clock (S (S (clock s)))))
                (wall_clock (S (clock s)))]>
            (timing s)))
      (S (S (S (S (clock s)))))
      (trace s ++ [Call_gen_mapping; Call_affine_registration; Np_save pf;
                   Write_json pm rigid; Write_mapping mapping_file;
                   Write_json meta_fname displacementfield]))) as ->; [|done].
  unfold run, get_for_row, GeneratedMapMixin.get_for_row, gen_mapping.
  rewrite Htype. unfold AffMap.gen_mapping, bind at 1, lift at 1.
  rewrite Hext. simpl. fold mapping_file meta_fname.
  unfold bind at 1, lift at 1. rewrite Hup. simpl.
  exec. rewrite Hmf. exec. rewrite Htemplate. exec. rewrite Hsubject. exec.
  erewrite (prealign_cold self afq_object r); [|done..].
  fold pf pm. simpl. rewrite Htimer.
  exec. rewrite lookup_insert_ne, lookup_insert_eq by congruence.
  exec. rewrite Hinit.
  exec. rewrite lookup_insert_ne, Htimer' by done.
  exec. rewrite lookup_insert_ne, lookup_insert_eq by congruence.
  exec. rewrite <- !app_assoc. simpl. fold template stored.
  by destruct (build_mapping _ _ _ _).
Qed.

(** [get_for_row] when everything it needs is on disk, in closed form. *)
Lemma warm_cache_run
    (self : instance) (afq_object : AFQ) (r : row) (s : state)
    (extension use_prealign : attr) (mapping_file meta_fname : string) :
  getattr self "extension" = Ok extension →
  GeneratedMapMixin.get_fnames extension afq_object r = Ok (mapping_file, meta_fname) →
  getattr self "use_prealign" = Ok use_prealign →
  is_Some (fs s !! mapping_file) →
  (truthy use_prealign = true → is_Some (fs s !! prealign_file afq_object r)) →
  get_for_row self afq_object r s
  = ((try! reg_prealign_inv :=
        (if truthy use_prealign then
           try! a := (np_load (prealign_file afq_object r) s).1 in
           try! inverse := call "np.linalg.inv" (linalg_inv a) in
           Ok (Some inverse)
         else Ok None) in
      (reg.read_mapping_from mapping_file (dwi_file r)
         (reg_template_img afq_object) reg_prealign_inv s).1), s).
Proof.
  intros Hext Hnames Hup Hmf Hpf.
  assert (bool_decide (is_Some (fs s !! mapping_file)) = true) as Hmf'
    by by apply bool_decide_eq_true_2.
  destruct Hmf as [content Hcontent].
  unfold get_for_row, GeneratedMapMixin.get_for_row.
  unfold bind at 1, lift at 1. rewrite Hext. simpl. rewrite Hnames.
  unfold bind at 1, lift at 1. rewrite Hup. simpl.
  destruct (truthy use_prealign) eqn:Htruthy.
  - unfold bind at 1. unfold bind at 1.
    rewrite (prealign_cached self afq_object r s (Hpf eq_refl)).
    exec. destruct (fs s !! prealign_file afq_object r) as [[a| |]|]; exec;
      rewrite ?Hmf', ?Hcontent; exec; try done.
    rewrite ?Htruthy. exec.
    destruct (linalg_inv a) as [inverse|]; exec; [|done].
    rewrite Hcontent. by destruct (build_mapping _ _ _ _).
  - exec. rewrite Hmf'. exec. rewrite ?Htruthy. exec.
    rewrite Hcontent. by destruct (build_mapping _ _ _ _).
Qed.

(** X11: with the mapping file on disk (and the prealign file too, if the
    object uses pre-registration), [get_for_row] only reads: the store is
    left exactly as it was (no call, no write, no timer touched, no clock
    reading), and the result is [read_mapping] of the mapping file with the
    inverse of the matrix in the prealign file as [prealign] (or without
    [prealign]). *)
Theorem X11_warm_cache_is_read_only
    (self : instance) (afq_object : AFQ) (r : row) (s : state)
    (extension use_prealign : attr) (mapping_file meta_fname : string) :
  getattr self "extension" = Ok extension →
  GeneratedMapMixin.get_fnames extension afq_object r = Ok (mapping_file, meta_fname) →
  getattr self "use_prealign" = Ok use_prealign →
  is_Some (fs s !! mapping_file) →
  (truthy use_prealign = true → is_Some (fs s !! prealign_file afq_object r)) →
  let run := get_for_row self afq_object r s in
  run.2 = s
  ∧ run.1 = (try! reg_prealign_inv :=
               (if truthy use_prealign then
                  try! a := (np_load (prealign_file afq_object r) s).1 in
                  try! inverse := call "np.linalg.inv" (linalg_inv a) in
                  Ok (Some inverse)
                else Ok None) in
             (reg.read_mapping_from mapping_file (dwi_file r)
                (reg_template_img afq_object) reg_prealign_inv s).1).
Proof.
  intros Hext Hnames Hup Hmf Hpf run. unfold run.
  by rewrite (warm_cache_run _ _ _ _ _ _ _ _ Hext Hnames Hup Hmf Hpf).
Qed.
End cold_runs.

(** ** Relations kept by every step of a run *)

(** [m] relates every store to the store it leaves, also when it raises. *)
Definition preserves {S A} (R : relation S) (m : M S A) : Prop :=
  ∀ s, R s (m s).2.

Section preserves.
Context {S : Type} (R : relation S) `{!Reflexive R, !Transitive R}.

Lemma preserves_ret {A} (a : A) : preserves R (ret a).
Proof using Type*. intros s. reflexivity. Qed.

Lemma preserves_raise {A} e : preserves R (raise (A:=A) e).
Proof using Type*. intros s. reflexivity. Qed.

Lemma preserves_lift {A} (r : result A) : preserves R (lift r).
Proof using Type*. intros s. reflexivity. Qed.

Lemma preserves_gets {A} (f : S → A) : preserves R (gets f).
Proof using Type*. intros s. reflexivity. Qed.

Lemma preserves_bind {A B} (m : M S A) (k : A → M S B) :
  preserves R m → (∀ a, preserves R (k a)) → preserves R (bind m k).
Proof using Type*.
  intros Hm Hk s. unfold bind. specialize (Hm s).
  destruct (m s) as [[a|e] s1]; simpl in *; [|done].
  etrans; [done|]. apply Hk.
Qed.

(** After a pure step the rest runs on the value it gave. *)
Lemma preserves_bind_lift {A B} (r : result A) (k : A → M S B) :
  (∀ a, r = Ok a → preserves R (k a)) → preserves R (bind (lift r) k).
Proof using Type*.
  intros Hk s. unfold bind, lift. destruct r as [a|e]; simpl; [by apply Hk|reflexivity].
Qed.
End preserves.

(** Splits a run into its steps; [leaf] settles the steps that touch the
    store and is tried first. *)
Ltac preserve leaf :=
  repeat first
    [ leaf
    | lazymatch goal with
      | |- preserves _ (ret _) => apply preserves_ret; solve [apply _]
      | |- preserves _ (raise _) => apply preserves_raise; solve [apply _]
      | |- preserves _ (lift _) => apply preserves_lift; solve [apply _]
      | |- preserves _ (gets _) => apply preserves_gets; solve [apply _]
      | |- preserves _ (op_exists _) => apply preserves_gets; solve [apply _]
      | |- preserves _ (bind (lift _) _) =>
          apply preserves_bind_lift; [solve [apply _]..|intros ? ?]
      | |- preserves _ (bind _ _) =>
          apply preserves_bind; [solve [apply _]..| |intros ?]
      | |- preserves _ (match ?x with _ => _ end) => destruct x
      end ].

(** The steps that are one access to the store. *)
Ltac store_access tac :=
  idtac; lazymatch goal with
  | |- preserves _ (emit _) => tac
  | |- preserves _ time => tac
  | |- preserves _ (np_save _ _) => tac
  | |- preserves _ (write_json _ _) => tac
  | |- preserves _ (reg.write_mapping _ _) => tac
  | |- preserves _ (np_load _) => tac
  | |- preserves _ (reg.read_mapping_from _ _ _ _) => tac
  | |- preserves _ (add_elapsed _ _) => tac
  end.

Ltac open_access :=
  unfold emit, time, np_save, write_json, reg.write_mapping, np_load,
    reg.read_mapping_from, add_elapsed, bind, gets, lift, modify, ret, raise,
    getitem, set_fs, set_timing; simpl; repeat case_match; simpl.

(** *** The timers *)

Section timers.
Context `{Numpy, !Fslpy, !Dipy, !AFQ_data, !AFQ_calls}.

(** The timers of [row['timing']] between two stores: the same keys, and
    the same readings except for the two registration timers. *)
Definition same_timers (s s' : state) : Prop :=
  dom (timing s') = dom (timing s)
  ∧ ∀ key, key ≠ "Registration" → key ≠ "Registration_pre_align" →
      timing s' !! key = timing s !! key.

#[global] Instance same_timers_refl : Reflexive same_timers.
Proof. by intros s. Qed.

#[global] Instance same_timers_trans : Transitive same_timers.
Proof.
  intros s1 s2 s3 [Hdom Hkeys] [Hdom' Hkeys']. split; [congruence|].
  intros key Hk Hk'. by rewrite Hkeys', Hkeys.
Qed.

Lemma add_elapsed_same_timers key start_time :
  key = "Registration" ∨ key = "Registration_pre_align" →
  preserves same_timers (add_elapsed key start_time).
Proof.
  intros Hkey s. unfold add_elapsed, bind, gets, lift, getitem, time, modify. simpl.
  destruct (timing s !! key) as [so_far|] eqn:Hso_far; simpl; [|done].
  split; simpl.
  - by apply dom_insert_lookup_L.
  - intros k Hk Hk'. rewrite lookup_insert_ne; [done|].
    destruct Hkey as [->| ->]; congruence.
Qed.

Ltac same_timers_access :=
  idtac; lazymatch goal with
  | |- preserves _ (add_elapsed _ _) => apply add_elapsed_same_timers; solve [auto]
  | |- _ => store_access ltac:(by intros ?; open_access)
  end.

Lemma prealign_same_timers self afq_object r :
  preserves same_timers (GeneratedMapMixin.prealign self afq_object r).
Proof. unfold GeneratedMapMixin.prealign. preserve same_timers_access. Qed.

Ltac same_timers_leaf :=
  idtac; lazymatch goal with
  | |- preserves _ (GeneratedMapMixin.prealign _ _ _) => apply prealign_same_timers
  | |- _ => same_timers_access
  end.

Lemma gen_mapping_same_timers self afq_object r tmpl tsls subj ssls reg_prealign :
  preserves same_timers (gen_mapping self afq_object r tmpl tsls subj ssls reg_prealign).
Proof.
  unfold gen_mapping.
  destruct (type self);
    unfold SynMap.gen_mapping, SlrMap.gen_mapping, AffMap.gen_mapping;
    preserve same_timers_leaf.
Qed.

(** X12: [get_for_row] of a generated-map class never adds or removes a timer of
    [row['timing']] and never changes a timer other than [Registration] and
    [Registration_pre_align], whether it returns, raises, registers or
    reads the cache. *)
Theorem X12_get_for_row_keeps_other_timers
    (self : instance) (afq_object : AFQ) (r : row) (s : state) :
  let run := get_for_row self afq_object r s in
  dom (timing run.2) = dom (timing s)
  ∧ ∀ key, key ≠ "Registration" → key ≠ "Registration_pre_align" →
      timing run.2 !! key = timing s !! key.
Proof.
  revert s. change (preserves same_timers (get_for_row self afq_object r)).
  unfold get_for_row, GeneratedMapMixin.get_for_row.
  preserve ltac:(first [apply gen_mapping_same_timers | same_timers_leaf]).
Qed.
End timers.

(** *** The disk *)

Section frame.
Context `{Numpy, !Fslpy, !Dipy, !AFQ_data, !AFQ_calls}.
Context (self : instance) (afq_object : AFQ) (r : row).

Lemma get_for_row_events_paths mapping_file meta_fname s evs p :
  get_for_row_events afq_object r mapping_file meta_fname s evs →
  p ∈ paths_written evs →
  p ∈ [prealign_file afq_object r; prealign_meta afq_object r;
       mapping_file; meta_fname].
Proof.
  intros (pre & inner & Hpre & Hinner & Hevs).
  destruct Hpre as [->|[_ [->| ->]]], Hinner as [->|[_ [->| ->]]],
    Hevs as [->|[_ [->| ->]]]; unfold paths_written; simpl; set_unfold; tauto.
Qed.

Lemma get_for_row_events_unwritten mapping_file meta_fname s evs p :
  get_for_row_events afq_object r mapping_file meta_fname s evs →
  (∀ q, Write_mapping q ∉ evs) →
  p ∈ paths_written evs →
  p = prealign_file afq_object r ∨ p = prealign_meta afq_object r.
Proof.
  intros (pre & inner & Hpre & Hinner & Hevs) Hno.
  destruct Hevs as [->|[_ [->| ->]]].
  3:{ destruct (Hno mapping_file). set_unfold. auto 10. }
  all: destruct Hpre as [->|[_ [->| ->]]], Hinner as [->|[_ [->| ->]]];
    unfold paths_written; simpl; set_unfold; tauto.
Qed.

(** X13: [get_for_row] of a generated-map class never removes a file, and the
    only paths whose content it can change are the prealign file, the
    prealign sidecar, the mapping file and the mapping sidecar of the
    row. *)
Theorem X13_get_for_row_touches_only_its_files
    (s : state) (extension : attr) (mapping_file meta_fname : string) :
  getattr self "extension" = Ok extension →
  GeneratedMapMixin.get_fnames extension afq_object r = Ok (mapping_file, meta_fname) →
  let run := get_for_row self afq_object r s in
  (∀ p, is_Some (fs s !! p) → is_Some (fs run.2 !! p))
  ∧ (∀ p, p ∉ [prealign_file afq_object r; prealign_meta afq_object r;
               mapping_file; meta_fname] →
          fs run.2 !! p = fs s !! p).
Proof.
  intros Hext Hnames run.
  destruct (get_for_row_run self afq_object r s _ _ _ Hext Hnames)
    as (Hstep & Hshape & _).
  fold run in Hstep, Hshape. split.
  - intros p. by apply (step_keeps _ _ _ _ Hstep).
  - intros p Hp. apply (step_frame _ _ _ Hstep). intros Hin. apply Hp.
    by eapply get_for_row_events_paths.
Qed.
End frame.

(** *** The calls made *)

Section calls.
Context `{Numpy, !Fslpy, !Dipy, !AFQ_data, !AFQ_calls}.

(** The trace grew by events that all satisfy [P]. *)
Definition only_events (P : event → Prop) (s s' : state) : Prop :=
  ∃ evs, trace s' = trace s ++ evs ∧ Forall P evs.

#[global] Instance only_events_refl P : Reflexive (only_events P).
Proof. intros s. exists []. by rewrite app_nil_r. Qed.

#[global] Instance only_events_trans P : Transitive (only_events P).
Proof.
  intros s1 s2 s3 (evs & Hevs & HP) (evs' & Hevs' & HP'). exists (evs ++ evs').
  split; [|by apply Forall_app]. by rewrite Hevs', Hevs, app_assoc.
Qed.

Lemma only_events_new P s s' : only_events P s s' → Forall P (new_events s s').
Proof.
  intros (evs & Hevs & HP). unfold new_events. by rewrite Hevs, drop_app_length.
Qed.

(** Events other than the affine registration and the save of its matrix. *)
Definition no_prealign_event (e : event) : Prop :=
  match e with
  | Call_affine_registration | Np_save _ => False
  | _ => True
  end.

(** Events other than the write of a mapping. *)
Definition no_write_mapping (e : event) : Prop :=
  match e with
  | Write_mapping _ => False
  | _ => True
  end.
End calls.

Ltac only_events_access :=
  store_access ltac:(
    intros ?; open_access;
    first [ by (exists []; rewrite ?app_nil_r)
          | eexists; split; [reflexivity|]; by repeat constructor ]).

Section without_prealign.
Context `{Numpy, !Fslpy, !Dipy, !AFQ_data, !AFQ_calls}.
Context (self : instance) (afq_object : AFQ) (r : row).

Lemma gen_mapping_no_prealign_event tmpl tsls subj ssls reg_prealign :
  type self ≠ C_AffMap →
  preserves (only_events no_prealign_event)
    (gen_mapping self afq_object r tmpl tsls subj ssls reg_prealign).
Proof.
  intros Htype. unfold gen_mapping.
  destruct (type self); [| |done];
    unfold SynMap.gen_mapping, SlrMap.gen_mapping; preserve only_events_access.
Qed.

(** X14: an object that does not use pre-registration and is not an [AffMap]
    (an [SlrMap], or a [SynMap] made with [use_prealign=False]) never calls
    the affine registration and never saves a matrix: the only paths
    [get_for_row] can change are the mapping file and its sidecar. *)
Theorem X14_without_prealign_no_affine_registration
    (s : state) (extension use_prealign : attr) (mapping_file meta_fname : string) :
  getattr self "extension" = Ok extension →
  GeneratedMapMixin.get_fnames extension afq_object r = Ok (mapping_file, meta_fname) →
  getattr self "use_prealign" = Ok use_prealign →
  truthy use_prealign = false →
  type self ≠ C_AffMap →
  let run := get_for_row self afq_object r s in
  let evs := new_events s run.2 in
  (Call_affine_registration ∉ evs)
  ∧ (∀ p, Np_save p ∉ evs)
  ∧ (∀ p, p ≠ mapping_file → p ≠ meta_fname → fs run.2 !! p = fs s !! p).
Proof.
  intros Hext Hnames Hup Htruthy Htype run evs.
  assert (Forall no_prealign_event evs) as Hevs.
  { apply only_events_new. revert s run evs.
    change (preserves (only_events no_prealign_event) (get_for_row self afq_object r)).
    unfold get_for_row, GeneratedMapMixin.get_for_row. rewrite Hup.
    preserve ltac:(idtac; lazymatch goal with
      | Hsame : Ok use_prealign = Ok ?a |- _ =>
          injection Hsame as <-; rewrite Htruthy; cbv iota
      | |- preserves _ (gen_mapping _ _ _ _ _ _ _ _) =>
          by apply gen_mapping_no_prealign_event
      | |- _ => only_events_access
      end). }
  rewrite Forall_forall in Hevs.
  assert (Call_affine_registration ∉ evs) as Haff by (intros Hin; by apply Hevs in Hin).
  assert (∀ p, Np_save p ∉ evs) as Hsave by (intros p Hin; by apply Hevs in Hin).
  split_and!; [done..|]. intros p Hmf Hmeta.
  destruct (get_for_row_run self afq_object r s _ _ _ Hext Hnames)
    as (Hstep & Hshape & _).
  fold run evs in Hstep, Hshape.
  apply (step_frame _ _ _ Hstep). intros Hin.
  destruct Hshape as (pre & inner & Hpre & Hinner & Hshape).
  assert (pre = [] ∧ inner = [] ∨ evs = []) as Hnone.
  { destruct Hpre as [->|[_ Hpre]].
    - destruct Hinner as [->|[_ Hinner]]; [by left|].
      destruct Hshape as [->|[_ Hshape]]; [by right|].
      destruct Haff. destruct Hinner as [->| ->], Hshape as [->| ->];
        set_unfold; auto 10.
    - destruct Haff. destruct Hpre as [->| ->], Hshape as [->|[_ [->| ->]]];
        set_unfold; auto 10. }
  destruct Hnone as [[-> ->]| Hnil].
  - destruct Hshape as [->|[_ [->| ->]]]; unfold paths_written in Hin; simpl in Hin;
      set_unfold; tauto.
  - rewrite Hnil in Hin. by apply elem_of_nil in Hin.
Qed.
End without_prealign.

Section missing_timer.
Context `{Numpy, !Fslpy, !Dipy, !AFQ_data, !AFQ_calls}.
Context (self : instance) (afq_object : AFQ) (r : row).

(** Between stores without a [Registration] timer: there is still none,
    and no mapping was written. *)
Definition unwritten (s s' : state) : Prop :=
  timing s !! "Registration" = None →
  timing s' !! "Registration" = None ∧ only_events no_write_mapping s s'.

#[global] Instance unwritten_refl : Reflexive unwritten.
Proof. intros s Hnone. split; [done|reflexivity]. Qed.

#[global] Instance unwritten_trans : Transitive unwritten.
Proof.
  intros s1 s2 s3 Hfst Hsnd Hnone. destruct (Hfst Hnone) as [Hnone' Hevs].
  destruct (Hsnd Hnone') as [Hnone'' Hevs']. split; [done|]. by etrans.
Qed.

(** The update of the missing timer raises, and nothing after it runs. *)
Lemma add_elapsed_missing {A} start_time (k : unit → M state A) :
  preserves unwritten (bind (add_elapsed "Registration" start_time) k).
Proof.
  intros s Hnone. unfold bind, add_elapsed, bind, gets, lift, getitem. simpl.
  rewrite Hnone. simpl. split; [done|reflexivity].
Qed.
End missing_timer.

Ltac unwritten_access :=
  idtac; lazymatch goal with
  | |- preserves _ (bind (add_elapsed "Registration" _) _) => apply add_elapsed_missing
  | |- _ =>
      store_access ltac:(
        intros ? ?; open_access; simplify_eq;
        (split; [by rewrite ?lookup_insert_ne by done|]);
        first [ by (exists []; rewrite ?app_nil_r)
              | eexists; split; [reflexivity|]; by repeat constructor ])
  end.

Section missing_timer_run.
Context `{Numpy, !Fslpy, !Dipy, !AFQ_data, !AFQ_calls}.
Context (self : instance) (afq_object : AFQ) (r : row).

Lemma prealign_unwritten :
  preserves unwritten (GeneratedMapMixin.prealign self afq_object r).
Proof. unfold GeneratedMapMixin.prealign. preserve unwritten_access. Qed.

Lemma gen_mapping_unwritten tmpl tsls subj ssls reg_prealign :
  preserves unwritten (gen_mapping self afq_object r tmpl tsls subj ssls reg_prealign).
Proof.
  unfold gen_mapping.
  destruct (type self);
    unfold SynMap.gen_mapping, SlrMap.gen_mapping, AffMap.gen_mapping;
    preserve ltac:(idtac; lazymatch goal with
      | |- preserves _ (GeneratedMapMixin.prealign _ _ _) => apply prealign_unwritten
      | |- _ => unwritten_access
      end).
Qed.

(** X15: without a [Registration] timer in [row['timing']], [get_for_row] never
    writes a mapping: the timer is updated between [gen_mapping] and
    [write_mapping], and the update raises [KeyError].  A row whose
    mapping file is not on disk is then left without one, and the call
    does not return, however often it is repeated. *)
Theorem X15_missing_Registration_timer
    (s : state) (extension : attr) (mapping_file meta_fname : string) :
  getattr self "extension" = Ok extension →
  GeneratedMapMixin.get_fnames extension afq_object r = Ok (mapping_file, meta_fname) →
  timing s !! "Registration" = None →
  let run := get_for_row self afq_object r s in
  let evs := new_events s run.2 in
  (∀ p, Write_mapping p ∉ evs)
  ∧ timing run.2 !! "Registration" = None
  ∧ (fs s !! mapping_file = None →
     mapping_file ≠ prealign_file afq_object r →
     mapping_file ≠ prealign_meta afq_object r →
     fs run.2 !! mapping_file = None ∧ is_ok run.1 = false).
Proof.
  intros Hext Hnames Hnone run evs.
  assert (unwritten s run.2) as Hrun.
  { revert s Hnone run evs.
    enough (preserves unwritten (get_for_row self afq_object r)) as Hall
      by (intros; apply Hall).
    unfold get_for_row, GeneratedMapMixin.get_for_row.
    preserve ltac:(idtac; lazymatch goal with
      | |- preserves _ (GeneratedMapMixin.prealign _ _ _) => apply prealign_unwritten
      | |- preserves _ (gen_mapping _ _ _ _ _ _ _ _) => apply gen_mapping_unwritten
      | |- _ => unwritten_access
      end). }
  destruct (Hrun Hnone) as [Hnone' Hevs]. apply only_events_new in Hevs.
  fold evs in Hevs. rewrite Forall_forall in Hevs.
  assert (∀ p, Write_mapping p ∉ evs) as Hno by (intros p Hin; by apply Hevs in Hin).
  split_and!; [done..|]. intros Habsent Hpf Hpm.
  destruct (get_for_row_run self afq_object r s _ _ _ Hext Hnames)
    as (Hstep & Hshape & Hres & _).
  fold run evs in Hstep, Hshape, Hres.
  assert (fs run.2 !! mapping_file = None) as Hstill.
  { rewrite (step_frame _ _ _ Hstep); [done|]. intros Hin.
    by destruct (get_for_row_events_unwritten afq_object r _ _ _ _ _ Hshape Hno Hin). }
  split; [done|]. destruct run.1 as [m|e] eqn:Hm; [|done].
  destruct (Hres m eq_refl) as (content & _ & _ & Hfile & _). congruence.
Qed.
End missing_timer_run.

(** ** Runs that return *)

(** [Q] holds of the value and the store of a run of [m] that returns. *)
Definition returns {S A} (m : M S A) (s : S) (Q : A → S → Prop) : Prop :=
  ∀ a, (m s).1 = Ok a → Q a (m s).2.

Section returns.
Context {S A : Type}.
Implicit Types (s : S) (Q : A → S → Prop).

Lemma returns_ret (a : A) s Q : Q a s → returns (ret a) s Q.
Proof. intros HQ b [= <-]. done. Qed.

Lemma returns_lift (r : result A) s Q : (∀ a, r = Ok a → Q a s) → returns (lift r) s Q.
Proof. intros HQ b Hb. by apply HQ. Qed.

Lemma returns_gets (f : S → A) s Q : Q (f s) s → returns (gets f) s Q.
Proof. intros HQ b [= <-]. done. Qed.

Lemma returns_bind {B} (m : M S B) (k : B → M S A) s Q :
  returns m s (fun b s1 => returns (k b) s1 Q) → returns (bind m k) s Q.
Proof.
  unfold returns, bind. intros Hm a.
  destruct (m s) as [[b|e] s1]; simpl in *; [|done]. by apply Hm.
Qed.

Lemma returns_any (m : M S A) s Q : (∀ a s', Q a s') → returns m s Q.
Proof. intros HQ a _. apply HQ. Qed.

Lemma returns_consequence (m : M S A) s Q Q' :
  returns m s Q → (∀ a s', Q a s' → Q' a s') → returns m s Q'.
Proof. intros Hm HQ a Ha. by apply HQ, Hm. Qed.

Lemma returns_preserves (R : relation S) (m : M S A) s Q :
  preserves R m → returns m s (fun a s' => R s s' → Q a s') → returns m s Q.
Proof. intros HR Hm a Ha. by apply Hm. Qed.
End returns.

(** *** Files that stay *)

Section keeps.
Context `{Numpy, !Fslpy, !Dipy, !AFQ_data, !AFQ_calls}.

(** A file that is at [p] stays there with its content. *)
Definition keeps (p : string) (s s' : state) : Prop :=
  ∀ content, fs s !! p = Some content → fs s' !! p = Some content.

#[global] Instance keeps_refl p : Reflexive (keeps p).
Proof. by intros s content. Qed.

#[global] Instance keeps_trans p : Transitive (keeps p).
Proof. intros s1 s2 s3 Hfst Hsnd content Hp. by apply Hsnd, Hfst. Qed.

Lemma prealign_keeps self afq_object r p :
  p ≠ prealign_meta afq_object r →
  preserves (keeps p) (GeneratedMapMixin.prealign self afq_object r).
Proof.
  intros Hpm s content Hp.
  destruct (runs_run _ _ _ (prealign_runs self afq_object r s)) as (Hstep & Hevs & _).
  rewrite (step_frame _ _ _ Hstep); [done|]. intros Hin.
  destruct (prealign_events_paths afq_object r _ _ _ Hevs Hin) as [->| ->]; [|done].
  destruct Hevs as [Hevs|[Habsent _]]; [|congruence].
  rewrite Hevs in Hin. by apply elem_of_nil in Hin.
Qed.
End keeps.

Ltac keeps_access :=
  store_access ltac:(
    intros ? ? ?; open_access; simplify_eq;
    rewrite ?lookup_insert_ne by done; done).

Section returned.
Context `{Numpy, !Fslpy, !Dipy, !AFQ_data, !AFQ_calls}.
Context (self : instance) (afq_object : AFQ) (r : row).

Lemma gen_mapping_keeps tmpl tsls subj ssls reg_prealign p :
  p ≠ prealign_meta afq_object r →
  preserves (keeps p) (gen_mapping self afq_object r tmpl tsls subj ssls reg_prealign).
Proof.
  intros Hpm. unfold gen_mapping.
  destruct (type self);
    unfold SynMap.gen_mapping, SlrMap.gen_mapping, AffMap.gen_mapping;
    preserve ltac:(idtac; lazymatch goal with
      | |- preserves _ (GeneratedMapMixin.prealign _ _ _) => by apply prealign_keeps
      | |- _ => keeps_access
      end).
Qed.

Lemma prealign_returns s :
  returns (GeneratedMapMixin.prealign self afq_object r) s
    (fun x _ => x = prealign_file afq_object r).
Proof.
  intros x Hx.
  destruct (runs_run _ _ _ (prealign_runs self afq_object r s)) as (_ & _ & Hres & _).
  by destruct (Hres x Hx).
Qed.

Lemma np_load_returns p s :
  returns (np_load p) s (fun a s' => s' = s ∧ fs s !! p = Some (NpyFile a)).
Proof.
  intros a. unfold np_load, bind, gets, ret, raise. simpl.
  repeat case_match; simpl; intros; by simplify_eq.
Qed.

Lemma read_mapping_from_store disp domain_img codomain_img prealign s :
  (reg.read_mapping_from disp domain_img codomain_img prealign s).2 = s.
Proof. unfold reg.read_mapping_from, bind, gets, raise, lift. simpl. by repeat case_match. Qed.

(** A run of [get_for_row] that returned: what it returned is what
    [read_mapping] gives on the store it left, with the inverse of the
    matrix in the prealign file if the object uses pre-registration. *)
Lemma get_for_row_returned s extension use_prealign mapping_file meta_fname :
  getattr self "extension" = Ok extension →
  GeneratedMapMixin.get_fnames extension afq_object r = Ok (mapping_file, meta_fname) →
  getattr self "use_prealign" = Ok use_prealign →
  (truthy use_prealign = true →
   prealign_file afq_object r ≠ prealign_meta afq_object r
   ∧ prealign_file afq_object r ≠ mapping_file
   ∧ prealign_file afq_object r ≠ meta_fname) →
  returns (get_for_row self afq_object r) s (fun m s' =>
    ∃ reg_prealign_inv,
      (reg.read_mapping_from mapping_file (dwi_file r) (reg_template_img afq_object)
         reg_prealign_inv s').1 = Ok m
      ∧ if truthy use_prealign then
          ∃ a inverse,
            fs s' !! prealign_file afq_object r = Some (NpyFile a)
            ∧ linalg_inv a = Some inverse
            ∧ reg_prealign_inv = Some inverse
        else reg_prealign_inv = None).
Proof.
  intros Hext Hnames Hup Hdistinct.
  unfold get_for_row, GeneratedMapMixin.get_for_row. rewrite Hext, Hup. simpl.
  rewrite Hnames.
  apply returns_bind, returns_lift. intros ? [= <-].
  apply returns_bind, returns_lift. intros ? [= <-].
  apply returns_bind.
  apply returns_consequence with (Q := fun reg_prealign s1 =>
    if truthy use_prealign then
      ∃ a, reg_prealign = Some a
           ∧ fs s1 !! prealign_file afq_object r = Some (NpyFile a)
    else reg_prealign = None).
  { destruct (truthy use_prealign); [|by apply returns_ret].
    apply returns_bind.
    eapply returns_consequence; [apply prealign_returns|]. simpl. intros ? s1 ->.
    apply returns_bind.
    eapply returns_consequence; [apply np_load_returns|]. simpl. intros a ? [-> Ha].
    apply returns_ret. eauto. }
  intros reg_prealign s1 Hpre.
  apply returns_preserves with (R := fun s s' =>
    truthy use_prealign = true → keeps (prealign_file afq_object r) s s').
  { destruct (truthy use_prealign) eqn:Htruthy.
    - destruct (Hdistinct eq_refl) as (Hpm & Hmf & Hmeta).
      enough (preserves (keeps (prealign_file afq_object r))
                (let! present := op_exists mapping_file in _)) as Hkeeps
        by (intros s0 _; apply Hkeeps).
      preserve ltac:(idtac; lazymatch goal with
        | |- preserves _ (gen_mapping _ _ _ _ _ _ _ _) => by apply gen_mapping_keeps
        | |- _ => keeps_access
        end).
    - by intros s0 ?. }
  apply returns_bind, returns_gets.
  apply returns_bind, returns_any. intros _ s2.
  apply returns_bind, returns_lift. intros ? [= <-].
  apply returns_bind.
  apply returns_consequence with (Q := fun reg_prealign_inv s3 =>
    s3 = s2
    ∧ if truthy use_prealign then
        ∃ a inverse, reg_prealign = Some a ∧ linalg_inv a = Some inverse
                     ∧ reg_prealign_inv = Some inverse
      else reg_prealign_inv = None).
  { destruct (truthy use_prealign); [|by apply returns_ret].
    destruct Hpre as (a & -> & _).
    apply returns_bind, returns_lift. intros inverse Hinverse.
    apply returns_ret. split; [done|]. exists a, inverse. split_and!; [done| |done].
    simpl in Hinverse. by destruct (linalg_inv a); simplify_eq/=. }
  intros reg_prealign_inv ? [-> Hinv] m Hm Hkeeps.
  rewrite read_mapping_from_store in Hkeeps |- *.
  exists reg_prealign_inv. split; [done|].
  destruct (truthy use_prealign); [|done].
  destruct Hpre as (a & -> & Ha). destruct Hinv as (? & inverse & [= <-] & ? & ?).
  exists a, inverse. split_and!; [|done..]. by apply (Hkeeps eq_refl).
Qed.

(** X16: the cache is keyed by the file name alone: once [get_for_row] of one
    object has returned a mapping for a row, [get_for_row] of any object
    with the same extension and the same use of pre-registration (the same
    object again, one with other keyword arguments, or one of another
    class) returns that same mapping for the row and leaves the store as
    it is, without registering anything. *)
Theorem X16_cache_is_keyed_by_file_name
    (other : instance) (s : state) (extension use_prealign use_prealign' : attr)
    (mapping_file meta_fname : string) (m : mapping) :
  getattr self "extension" = Ok extension →
  getattr other "extension" = Ok extension →
  GeneratedMapMixin.get_fnames extension afq_object r = Ok (mapping_file, meta_fname) →
  getattr self "use_prealign" = Ok use_prealign →
  getattr other "use_prealign" = Ok use_prealign' →
  truthy use_prealign' = truthy use_prealign →
  (truthy use_prealign = true →
   prealign_file afq_object r ≠ prealign_meta afq_object r
   ∧ prealign_file afq_object r ≠ mapping_file
   ∧ prealign_file afq_object r ≠ meta_fname) →
  let run := get_for_row self afq_object r s in
  run.1 = Ok m →
  get_for_row other afq_object r run.2 = (Ok m, run.2).
Proof.
  intros Hext Hext' Hnames Hup Hup' Hsame Hdistinct run Hm.
  destruct (get_for_row_returned s _ _ _ _ Hext Hnames Hup Hdistinct m Hm)
    as (reg_prealign_inv & Hread & Hinv).
  fold run in Hread, Hinv.
  assert (is_Some (fs run.2 !! mapping_file)) as Hmf.
  { revert Hread. unfold reg.read_mapping_from, bind, gets, raise. simpl.
    by destruct (fs run.2 !! mapping_file); eauto. }
  rewrite (warm_cache_run other afq_object r run.2 _ _ _ _ Hext' Hnames Hup' Hmf).
  - rewrite Hsame. destruct (truthy use_prealign).
    + destruct Hinv as (a & inverse & Ha & Hinverse & ->).
      unfold np_load, bind, gets, ret. simpl. rewrite Ha. simpl.
      rewrite Hinverse. simpl. by rewrite Hread.
    + rewrite Hinv in Hread. simpl. by rewrite Hread.
  - rewrite Hsame. intros Htruthy. rewrite Htruthy in Hinv.
    destruct Hinv as (a & _ & -> & _). eauto.
Qed.
End returned.

(** ** The further properties in the concrete world *)

Module Cases.
Import Toy.
#[local] Existing Instances numpy fslpy h5py dipy afq_data afq_calls.

(** The dataset layout of the concrete world. *)
Definition layout : @BIDSLayout afq_data := tt.

(** A warp file whose affine transform has a single translation value. *)
Definition one_translation : list (@float64 numpy) :=
  ([1; 2; 3; 4; 5; 6; 7; 8; 9; 100]%Z : list Z).
Definition translated_f5 : gmap string (gmap string (gmap string (list (@float64 numpy)))) :=
  {[ "TransformGroup" :=
     {[ "1" := {[ "TransformFixedParameters" := fixed_parameters;
                  "TransformParameters" := forward_field ]};
        "2" := {[ "TransformParameters" := one_translation ]} ]} ]}.
Definition translating : @H5py numpy :=
  @Build_H5py numpy (fun _ => Some translated_f5).

(** A store with an unrelated file on disk. *)
Definition with_dwi : @state numpy fslpy dipy afq_data :=
  mk_state {[ "sub-01_dwi.nii.gz" := JsonFile ∅ ]}
    {[ "Registration" := 0%Z; "Registration_pre_align" := 0%Z ]} 0 [].

(** A store without the [Registration] timer. *)
Definition untimed : @state numpy fslpy dipy afq_data :=
  mk_state ∅ {[ "Registration_pre_align" := 0%Z ]} 0 [].

(** The objects of the runs below. *)
Definition syn_prealigned : @instance numpy := @SynMap.__init__ numpy (Some true) None None.
Definition syn_plain : @instance numpy := @SynMap.__init__ numpy (Some false) None None.
Definition aff_map : @instance numpy := @AffMap.__init__ numpy None.
Definition slr_map : @instance numpy := @SlrMap.__init__ numpy None.

(** Two subjects of one session, found in either order. *)
Lemma X1_witness :
  let new := FnirtMap.mk "warp" "MNI" ∅ ∅ ∅ in
  let one := FnirtMap.find_path layout "derivatives" "sub-01" "01" in
  let two := FnirtMap.find_path layout "derivatives" "sub-02" "01" in
  (two (one new).2).2 = (one (two new).2).2.
Proof.
  intros new one two.
  assert (("01", "sub-01") ≠ ("01", "sub-02")) as Hne by (by intros [=]).
  destruct (X1_find_path_calls_commute layout "derivatives" "sub-01" "01"
              layout "derivatives" "sub-02" "01" Hne) as [Hfnirt _].
  apply Hfnirt.
Defined.

(** [find_path] and then [get_for_row] for [sub01]. *)
Lemma X4_witness :
  let found := (FnirtMap.find_path layout "derivatives" "sub-01" "01"
                  (FnirtMap.mk "warp" "MNI" ∅ ∅ ∅)).2 in
  FnirtMap.get_for_row found afq_object sub01
  = Ok (ConformedFnirtMapping "derivatives/01/sub-01_warp" eye4).
Proof.
  assert (find_file layout "derivatives" ∅ "warp" (ses sub01) (subject sub01) None
          = Some "derivatives/01/sub-01_warp") as Hwarp by reflexivity.
  assert (find_file layout "derivatives" ∅ "MNI" (ses sub01) (subject sub01) None
          = Some "derivatives/01/sub-01_MNI") as Hspace by reflexivity.
  apply (X4_FnirtMap_find_then_get (FnirtMap.mk "warp" "MNI" ∅ ∅ ∅) layout
           "derivatives" afq_object sub01 _ _ Hwarp Hspace).
Defined.

(** A warp file that cannot be opened. *)
Lemma X5_witness :
  ItkMap.get_for_row
    (ItkMap.mk "xfm" ∅ {[ "01" := {[ "sub-01" := "missing.h5" ]} ]}) afq_object sub01
  = Raise (Raised "h5py.File").
Proof.
  assert (lookup2 (ItkMap.fnames
            (ItkMap.mk "xfm" ∅ {[ "01" := {[ "sub-01" := "missing.h5" ]} ]}))
            (ses sub01) (subject sub01) = Some "missing.h5") as Hfound by reflexivity.
  destruct (X5_ItkMap_missing_warp_data _ afq_object sub01 _ Hfound) as [Hclosed _].
  by apply Hclosed.
Defined.

(** The single translation value lands in all three rows of the last
    column. *)
Lemma X6_witness :
  @ItkMap.get_for_row numpy fslpy translating dipy afq_data afq_calls
    itk_map afq_object sub01
  = reg.read_mapping
      (mk_Nifti1Image
         (mk_ndarray [1; 1; 2; 3; 2]%Z [10; 0; 11; 0; 12; 0; 20; 0; 21; 0; 22; 0]%Z)
         eye4)
      "sub-01_dwi.nii.gz" template
      (Some (mk_ndarray [4; 4]%Z
               [1; 2; 3; 100; 4; 5; 6; 100; 7; 8; 9; 100; 0; 0; 0; 1]%Z)).
Proof.
  assert (lookup2 (ItkMap.fnames itk_map) (ses sub01) (subject sub01)
          = Some "sub-01_xfm.h5") as Hfound by reflexivity.
  assert (@h5py_File numpy translating "sub-01_xfm.h5" = Some translated_f5)
    as Hopen by reflexivity.
  assert (ItkMap.transform_dataset translated_f5 "1" "TransformFixedParameters"
          = Ok fixed_parameters) as Hfixed by reflexivity.
  assert (take 3 (to_int <$> fixed_parameters)
          = shape (get_fdata (reg_template_img afq_object))) as Hshape by reflexivity.
  assert (Forall (Z.le 0) (shape (get_fdata (reg_template_img afq_object)))) as Hpos.
  { repeat constructor; done. }
  assert (ItkMap.transform_dataset translated_f5 "1" "TransformParameters"
          = Ok forward_field) as Hparams by reflexivity.
  assert (ItkMap.transform_dataset translated_f5 "2" "TransformParameters"
          = Ok one_translation) as Hparams2 by reflexivity.
  destruct (@X6_ItkMap_parameter_counts numpy fslpy translating dipy afq_data afq_calls
              itk_map afq_object sub01 _ _ _ Hfound Hopen Hfixed Hshape Hpos
              forward_field Hparams) as [_ Hcount].
  destruct (Hcount eq_refl one_translation Hparams2) as (_ & _ & Hone).
  apply (Hone 1 2 3 4 5 6 7 8 9 100)%Z. reflexivity.
Defined.

(** The first call of [prealign] registers and saves; the second one only
    returns the path. *)
Lemma X8_witness :
  let run := GeneratedMapMixin.prealign syn_map afq_object sub01 fresh in
  trace run.2 = [Call_affine_registration;
                 Np_save "sub-01_prealign_from-DWI_to-MNI_xfm.npy";
                 Write_json "sub-01_prealign_from-DWI_to-MNI_xfm.json" rigid]
  ∧ GeneratedMapMixin.prealign syn_map afq_object sub01 run.2
    = (Ok "sub-01_prealign_from-DWI_to-MNI_xfm.npy", run.2).
Proof.
  assert (fs fresh !! prealign_file afq_object sub01 = None) as Habsent by reflexivity.
  assert (_reg_img afq_object (reg_subject afq_object) true sub01
          = Some (template, no_streamlines)) as Himg by reflexivity.
  assert (getattr syn_map "affine_kwargs" = Ok (ADict ∅)) as Hkw by reflexivity.
  assert (affine_registration template (reg_template_img afq_object) ∅ = Some eye4)
    as Haff by reflexivity.
  destruct (X8_prealign_cold_run syn_map afq_object sub01 fresh _ _ _ _
              Habsent Himg Hkw Haff) as (_ & Htrace & _ & Hagain).
  split; [apply Htrace|apply Hagain].
Defined.

(** The first run of a [SynMap] on an empty disk. *)
Lemma X9_witness :
  let run := get_for_row syn_prealigned afq_object sub01 fresh in
  run.1 = Ok (OpaqueMapping (built "sub-01_mapping_from-DWI_to_MNI_xfm.nii.gz"))
  ∧ trace run.2 = [Call_affine_registration;
                   Np_save "sub-01_prealign_from-DWI_to-MNI_xfm.npy";
                   Write_json "sub-01_prealign_from-DWI_to-MNI_xfm.json" rigid;
                   Call_gen_mapping;
                   Write_mapping "sub-01_mapping_from-DWI_to_MNI_xfm.nii.gz";
                   Write_json "sub-01_mapping_reg.json" displacementfield].
Proof.
  pose (mapping_file :=
    _get_fname afq_object sub01 "_mapping_from-DWI_to_MNI_xfm" +:+ ".nii.gz").
  pose (meta_fname := _get_fname afq_object sub01 "_mapping_reg" +:+ ".json").
  assert (prealign_file afq_object sub01 ≠ prealign_meta afq_object sub01)
    as Hpfpm by (by vm_compute).
  assert (mapping_file ≠ prealign_file afq_object sub01) as Hmfpf by (by vm_compute).
  assert (mapping_file ≠ prealign_meta afq_object sub01) as Hmfpm by (by vm_compute).
  assert (mapping_file ≠ meta_fname) as Hmfmeta by (by vm_compute).
  assert (fs fresh !! prealign_file afq_object sub01 = None) as Hpf by reflexivity.
  assert (fs fresh !! mapping_file = None) as Hmf by reflexivity.
  assert (timing fresh !! "Registration_pre_align" = Some 0%Z) as Htimer by reflexivity.
  assert (timing fresh !! "Registration" = Some 0%Z) as Htimer' by reflexivity.
  assert (_reg_img afq_object (reg_subject afq_object) true sub01
          = Some (template, no_streamlines)) as Hsubject by reflexivity.
  assert (_reg_img afq_object (reg_template afq_object) false sub01
          = Some (template, no_streamlines)) as Htemplate by reflexivity.
  assert (affine_registration template (reg_template_img afq_object) (default ∅ None)
          = Some eye4) as Haff by reflexivity.
  assert (syn_registration (get_fdata template) (get_fdata template)
            (affine template) (affine template) (Some eye4) (default ∅ None)
          = Some (Some eye4)) as Hsyn by reflexivity.
  assert (linalg_inv eye4 = Some eye4) as Hinv by reflexivity.
  destruct (X9_SynMap_cold_run None None afq_object sub01 fresh _ _ _ _ _ _ _ _ _
              Hpfpm Hmfpf Hmfpm Hmfmeta Hpf Hmf Htimer Htimer' Hsubject Htemplate
              Haff Hsyn Hinv) as (Hres & _ & Htrace & _).
  split; [exact Hres|exact Htrace].
Defined.

(** The first run of an [AffMap] on an empty disk. *)
Lemma X10_witness :
  let run := get_for_row aff_map afq_object sub01 fresh in
  run.1 = Ok (OpaqueMapping (built "sub-01_mapping_from-DWI_to_MNI_xfm.npy"))
  ∧ trace run.2 = [Call_gen_mapping;
                   Call_affine_registration;
                   Np_save "sub-01_prealign_from-DWI_to-MNI_xfm.npy";
                   Write_json "sub-01_prealign_from-DWI_to-MNI_xfm.json" rigid;
                   Write_mapping "sub-01_mapping_from-DWI_to_MNI_xfm.npy";
                   Write_json "sub-01_mapping_reg.json" displacementfield].
Proof.
  pose (mapping_file :=
    _get_fname afq_object sub01 "_mapping_from-DWI_to_MNI_xfm" +:+ ".npy").
  pose (meta_fname := _get_fname afq_object sub01 "_mapping_reg" +:+ ".json").
  assert (prealign_file afq_object sub01 ≠ prealign_meta afq_object sub01)
    as Hpfpm by (by vm_compute).
  assert (mapping_file ≠ meta_fname) as Hmfmeta by (by vm_compute).
  assert (fs fresh !! prealign_file afq_object sub01 = None) as Hpf by reflexivity.
  assert (fs fresh !! mapping_file = None) as Hmf by reflexivity.
  assert (timing fresh !! "Registration_pre_align" = Some 0%Z) as Htimer by reflexivity.
  assert (timing fresh !! "Registration" = Some 0%Z) as Htimer' by reflexivity.
  assert (_reg_img afq_object (reg_subject afq_object) true sub01
          = Some (template, no_streamlines)) as Hsubject by reflexivity.
  assert (_reg_img afq_object (reg_template afq_object) false sub01
          = Some (template, no_streamlines)) as Htemplate by reflexivity.
  assert (affine_registration template (reg_template_img afq_object) (default ∅ None)
          = Some eye4) as Haff by reflexivity.
  assert (AffineMap_init eye4 = Some eye4) as Hinit by reflexivity.
  destruct (X10_AffMap_cold_run None afq_object sub01 fresh _ _ _ _ _ _ _ _
              Hpfpm Hmfmeta Hpf Hmf Htimer Htimer' Hsubject Htemplate Haff Hinit)
    as (Hres & _ & Htrace & _).
  split; [exact Hres|exact Htrace].
Defined.

(** The second run of the [SynMap] leaves the store of the first. *)
Lemma X11_witness :
  (get_for_row syn_map afq_object sub01 after_first_run).2 = after_first_run.
Proof.
  assert (getattr syn_map "extension" = Ok (AStr ".nii.gz")) as Hext by reflexivity.
  assert (GeneratedMapMixin.get_fnames (AStr ".nii.gz") afq_object sub01
          = Ok ("sub-01_mapping_from-DWI_to_MNI_xfm.nii.gz", "sub-01_mapping_reg.json"))
    as Hnames by reflexivity.
  assert (getattr syn_map "use_prealign" = Ok (ABool true)) as Hup by reflexivity.
  assert (is_Some (fs after_first_run !! "sub-01_mapping_from-DWI_to_MNI_xfm.nii.gz"))
    as Hmf by (eexists; reflexivity).
  assert (truthy (ABool true) = true →
          is_Some (fs after_first_run !! prealign_file afq_object sub01))
    as Hpf by (intros _; eexists; reflexivity).
  destruct (X11_warm_cache_is_read_only syn_map afq_object sub01 after_first_run
              _ _ _ _ Hext Hnames Hup Hmf Hpf) as [Hstore _].
  exact Hstore.
Defined.

(** The first run of the [SynMap] leaves an unrelated file alone. *)
Lemma X13_witness :
  fs (get_for_row syn_map afq_object sub01 with_dwi).2 !! "sub-01_dwi.nii.gz"
  = Some (JsonFile ∅).
Proof.
  assert (getattr syn_map "extension" = Ok (AStr ".nii.gz")) as Hext by reflexivity.
  assert (GeneratedMapMixin.get_fnames (AStr ".nii.gz") afq_object sub01
          = Ok ("sub-01_mapping_from-DWI_to_MNI_xfm.nii.gz", "sub-01_mapping_reg.json"))
    as Hnames by reflexivity.
  destruct (X13_get_for_row_touches_only_its_files syn_map afq_object sub01 with_dwi
              _ _ _ Hext Hnames) as [_ Hframe].
  rewrite Hframe; [reflexivity|]. intros Hin.
  repeat (apply elem_of_cons in Hin as [Hin|Hin]; [by vm_compute in Hin|]).
  by apply elem_of_nil in Hin.
Defined.

(** A [SynMap] made with [use_prealign=False] never registers affinely. *)
Lemma X14_witness :
  Call_affine_registration
  ∉ new_events fresh (get_for_row syn_plain afq_object sub01 fresh).2.
Proof.
  assert (getattr syn_plain "extension" = Ok (AStr ".nii.gz")) as Hext by reflexivity.
  assert (GeneratedMapMixin.get_fnames (AStr ".nii.gz") afq_object sub01
          = Ok ("sub-01_mapping_from-DWI_to_MNI_xfm.nii.gz", "sub-01_mapping_reg.json"))
    as Hnames by reflexivity.
  assert (getattr syn_plain "use_prealign" = Ok (ABool false)) as Hup by reflexivity.
  assert (truthy (ABool false) = false) as Htruthy by reflexivity.
  assert (type syn_plain ≠ C_AffMap) as Htype by done.
  destruct (X14_without_prealign_no_affine_registration syn_plain afq_object sub01
              fresh _ _ _ _ Hext Hnames Hup Htruthy Htype) as [Hnever _].
  exact Hnever.
Defined.

(** Without the timer the run registers, raises and leaves no mapping. *)
Lemma X15_witness :
  let run := get_for_row syn_map afq_object sub01 untimed in
  fs run.2 !! "sub-01_mapping_from-DWI_to_MNI_xfm.nii.gz" = None
  ∧ is_ok run.1 = false.
Proof.
  assert (getattr syn_map "extension" = Ok (AStr ".nii.gz")) as Hext by reflexivity.
  assert (GeneratedMapMixin.get_fnames (AStr ".nii.gz") afq_object sub01
          = Ok ("sub-01_mapping_from-DWI_to_MNI_xfm.nii.gz", "sub-01_mapping_reg.json"))
    as Hnames by reflexivity.
  assert (timing untimed !! "Registration" = None) as Hnone by reflexivity.
  destruct (X15_missing_Registration_timer syn_map afq_object sub01 untimed
              _ _ _ Hext Hnames Hnone) as (_ & _ & Hlost).
  apply Hlost; [reflexivity|by vm_compute..].
Defined.

(** An [SlrMap] after an [AffMap]: it returns the mapping the [AffMap]
    generated. *)
Lemma X16_witness :
  let first := get_for_row aff_map afq_object sub01 fresh in
  get_for_row slr_map afq_object sub01 first.2
  = (Ok (OpaqueMapping (built "sub-01_mapping_from-DWI_to_MNI_xfm.npy")), first.2).
Proof.
  intros first.
  assert (getattr aff_map "extension" = Ok (AStr ".npy")) as Hext by reflexivity.
  assert (getattr slr_map "extension" = Ok (AStr ".npy")) as Hext' by reflexivity.
  assert (GeneratedMapMixin.get_fnames (AStr ".npy") afq_object sub01
          = Ok ("sub-01_mapping_from-DWI_to_MNI_xfm.npy", "sub-01_mapping_reg.json"))
    as Hnames by reflexivity.
  assert (getattr aff_map "use_prealign" = Ok (ABool false)) as Hup by reflexivity.
  assert (getattr slr_map "use_prealign" = Ok (ABool false)) as Hup' by reflexivity.
  assert (truthy (ABool false) = truthy (ABool false)) as Hsame by reflexivity.
  assert (truthy (ABool false) = true →
          prealign_file afq_object sub01 ≠ prealign_meta afq_object sub01
          ∧ prealign_file afq_object sub01 ≠ "sub-01_mapping_from-DWI_to_MNI_xfm.npy"
          ∧ prealign_file afq_object sub01 ≠ "sub-01_mapping_reg.json")
    as Hdistinct by (by intros [=]).
  assert (first.1 = Ok (OpaqueMapping (built "sub-01_mapping_from-DWI_to_MNI_xfm.npy")))
    as Hfirst by (by vm_compute).
  exact (X16_cache_is_keyed_by_file_name aff_map afq_object sub01 slr_map fresh
           _ _ _ _ _ _ Hext Hext' Hnames Hup Hup' Hsame Hdistinct Hfirst).
Defined.
End Cases.
